(** * TB incidence time series: the LSTM section of [analyze_tb_incidence.py]
      and the merge of [data_updater.py]

    The analysis script is a straight-line program.  Its LSTM section
    (lines 150-232) normalises the series with scikit-learn's
    [MinMaxScaler], cuts it into look-back windows, evaluates the trained
    network on the held-out windows and extends the series by feeding the
    network its own predictions.  The script's constants [look_back = 4]
    and [range(5)] are parameters of the definitions below; module
    [Lstm] gives their values.

    Floating-point numbers are modelled by exact rationals ([Q]); every
    statement about values is therefore a statement in exact arithmetic.
    Python exceptions are results of an error monad. *)

From Stdlib Require Import String.
From Stdlib Require Import List Arith ZArith QArith Qminmax Lia Bool.
From Stdlib Require Import Permutation Sorted.
Import ListNotations.

Set Implicit Arguments.

Close Scope Q_scope.
Close Scope string_scope.
Close Scope Z_scope.
Open Scope nat_scope.

(** ** Python results *)

Module Py.

(** The exceptions the modelled statements can raise. *)
Inductive exn : Type :=
| ValueError
| IndexError.

Inductive result (A : Type) : Type :=
| Return (a : A)
| Raise (e : exn).

Arguments Return {A} a.
Arguments Raise {A} e.

Definition bind {A B : Type} (c : result A) (k : A -> result B) : result B :=
  match c with
  | Return a => k a
  | Raise e => Raise e
  end.

Definition raises {A : Type} (c : result A) : Prop :=
  exists e, c = Raise e.

End Py.

Import Py.

Notation "x <- c ;; k" := (bind c (fun x => k))
  (at level 61, c at next level, right associativity).

(** ** The numpy operations the script uses, on one-dimensional arrays *)

Module Np.

Section Arrays.
Variable A : Type.

(** [a[i:j]] for [0 <= i], [0 <= j]: slices clip, they never raise. *)
Definition slice (a : list A) (i j : nat) : list A :=
  firstn (j - i) (skipn i a).

(** [a[i]] for [0 <= i]. *)
Definition getitem (a : list A) (i : nat) : result A :=
  match nth_error a i with
  | Some x => Return x
  | None => Raise IndexError
  end.

(** [a[-n:]]: the last [n] entries, the whole array when it is shorter,
    and, since [-0] is [0], the whole array when [n = 0]. *)
Definition last_slice (a : list A) (n : nat) : list A :=
  match n with
  | O => a
  | S _ => skipn (length a - n) a
  end.

(** [np.roll(a, -1)]: a fresh array, rotated left by one. *)
Definition roll_left (a : list A) : list A :=
  match a with
  | [] => []
  | x :: t => t ++ [x]
  end.

(** [a[-1] = v]. *)
Definition setitem_last (a : list A) (v : A) : result (list A) :=
  match a with
  | [] => Raise IndexError
  | _ :: _ => Return (removelast a ++ [v])
  end.

(** [a.reshape(1, w, 1)]: the same entries, or [ValueError] when the
    size is not [w]. *)
Definition reshape_1_w_1 (w : nat) (a : list A) : result (list A) :=
  if Nat.eqb (length a) w then Return a else Raise ValueError.

End Arrays.

End Np.

(** ** Windowing (lines 159-166) *)

Module Windowing.

Section Loop.
Variable A : Type.
Variable look_back : nat.
Variable scaled_data : list A.

(** The loop state: the Python lists [X] and [y]. *)
Definition state : Type := (list (list A) * list A)%type.

(** One iteration:
    [X.append(scaled_data[i:i+look_back, 0])]
    [y.append(scaled_data[i+look_back, 0])]. *)
Definition body (i : nat) (st : state) : result state :=
  let '(X, y) := st in
  let X := X ++ [Np.slice scaled_data i (i + look_back)] in
  label <- Np.getitem scaled_data (i + look_back) ;;
  Return (X, y ++ [label]).

Fixpoint for_in (idx : list nat) (st : state) : result state :=
  match idx with
  | [] => Return st
  | i :: rest => st' <- body i st ;; for_in rest st'
  end.

(** [range(len(scaled_data) - look_back)]; a negative bound gives the
    empty range, as the truncated subtraction does. *)
Definition make_windows : result state :=
  for_in (seq 0 (length scaled_data - look_back)) ([], []).

End Loop.

(** The split by position of lines 169-171: [int(len(X) * 0.8)]. *)
Definition train_size (n : nat) : nat := (n * 4) / 5.

Definition train_test_split (A : Type) (X : list (list A)) (y : list A)
  : (list (list A) * list (list A)) * (list A * list A) :=
  let k := train_size (length X) in
  ((firstn k X, skipn k X), (firstn k y, skipn k y)).

End Windowing.

(** ** Recursive forecast (lines 196-203) *)

Module Forecast.

Section Loop.
Variable A : Type.
Variable look_back : nat.
(** The trained network, one window in, one value out:
    [lstm_model.predict(w)[0][0]]. *)
Variable predict : list A -> A.

(** The loop state: [last_sequence] and [future_predictions]. *)
Definition state : Type := (list A * list A)%type.

(** One iteration of the loop body (lines 200-203). *)
Definition body (st : state) : result state :=
  let '(last_sequence, future_predictions) := st in
  window <- Np.reshape_1_w_1 look_back last_sequence ;;
  let next_pred := predict window in
  let future_predictions := future_predictions ++ [next_pred] in
  let last_sequence := Np.roll_left last_sequence in
  last_sequence <- Np.setitem_last last_sequence next_pred ;;
  Return (last_sequence, future_predictions).

(** [for _ in range(horizon)]. *)
Fixpoint loop (horizon : nat) (st : state) : result state :=
  match horizon with
  | O => Return st
  | S k => st' <- body st ;; loop k st'
  end.

(** The loop started as the script starts it, on a copy of the
    context and an empty output list. *)
Definition forecast (initial_context : list A) (horizon : nat)
  : result state :=
  loop horizon (initial_context, []).

(** Lines 196-203. *)
Definition future_predictions (scaled_data : list A) (horizon : nat)
  : result (list A) :=
  st <- forecast (Np.last_slice scaled_data look_back) horizon ;;
  Return (snd st).

(** The window slid by one: the oldest entry dropped, the prediction
    made from the window appended. *)
Definition slide (c : list A) : list A := tl c ++ [predict c].

(** The predictions of the first [n] iterations, in the order made,
    each computed from the context slid so far. *)
Definition predictions (initial_context : list A) (n : nat) : list A :=
  map (fun j => predict (Nat.iter j slide initial_context)) (seq 0 n).

(** The context history rebuilt from the initial context and the
    outputs alone: the last [look_back] entries of the context
    followed by the first [j] outputs. *)
Definition context_from_outputs (initial_context outs : list A) (j : nat)
  : list A :=
  skipn j (initial_context ++ firstn j outs).

End Loop.

End Forecast.

(** ** Normalisation: scikit-learn's [MinMaxScaler] (lines 155-156, 191-193, 205)

    The scaler is library code.  The definitions follow
    [sklearn.preprocessing.MinMaxScaler] with its default
    [feature_range = (0, 1)], one feature column, in exact arithmetic. *)

Module MinMaxScaler.

Open Scope Q_scope.

(** [np.finfo(np.float64).eps]. *)
Definition eps : Q := 1 # (2 ^ 52).

Definition feature_range : Q * Q := (0, 1).

(** The fitted attributes. *)
Record t : Type := mk {
  data_min_ : Q;
  data_max_ : Q;
  data_range_ : Q;
  scale_ : Q;
  min_ : Q
}.

(** [check_array]: an array with no sample is refused. *)
Definition check_array (X : list Q) : result (list Q) :=
  match X with
  | [] => Raise ValueError
  | _ :: _ => Return X
  end.

(** [_handle_zeros_in_scale]: a range below [10 * eps] is replaced by [1]. *)
Definition handle_zeros_in_scale (scale : Q) : Q :=
  if Qle_bool (10 * eps) scale then scale else 1.

Definition fit (X : list Q) : result t :=
  X <- check_array X ;;
  match X with
  | [] => Raise ValueError
  | x :: rest =>
      let data_min := fold_left Qmin rest x in
      let data_max := fold_left Qmax rest x in
      let data_range := data_max - data_min in
      let scale :=
        (snd feature_range - fst feature_range)
        / handle_zeros_in_scale data_range in
      let min := fst feature_range - data_min * scale in
      Return {| data_min_ := data_min; data_max_ := data_max;
                data_range_ := data_range; scale_ := scale; min_ := min |}
  end.

(** [X *= scale_; X += min_]. *)
Definition transform1 (sc : t) (x : Q) : Q := x * scale_ sc + min_ sc.

(** [X -= min_; X /= scale_]. *)
Definition inverse1 (sc : t) (x : Q) : Q := (x - min_ sc) / scale_ sc.

Definition transform (sc : t) (X : list Q) : result (list Q) :=
  X <- check_array X ;; Return (map (transform1 sc) X).

Definition inverse_transform (sc : t) (X : list Q) : result (list Q) :=
  X <- check_array X ;; Return (map (inverse1 sc) X).

(** [scaler.fit_transform(X)]: the fitted scaler and the scaled column. *)
Definition fit_transform (X : list Q) : result (t * list Q) :=
  sc <- fit X ;;
  scaled <- transform sc X ;;
  Return (sc, scaled).

(** The transform as the specification words it, from a pair (min, max). *)
Definition spec_transform (v mn mx : Q) : Q := (v - mn) / (mx - mn).

Definition spec_inverse (v mn mx : Q) : Q := v * (mx - mn) + mn.

End MinMaxScaler.

(** ** Test-set error (lines 188-193 and 230) *)

Module Evaluate.

Open Scope Q_scope.

(** [a - b] on one-dimensional arrays: element by element, a
    one-element array is broadcast, other shapes do not match. *)
Definition np_sub (a b : list Q) : result (list Q) :=
  if Nat.eqb (length a) (length b) then
    Return (map (fun p => fst p - snd p) (combine a b))
  else match a, b with
       | [x], _ => Return (map (fun v => x - v) b)
       | _, [v] => Return (map (fun x => x - v) a)
       | _, _ => Raise ValueError
       end.

Definition np_sum (a : list Q) : Q := fold_right Qplus 0 a.

(** [np.mean]; [None] stands for the [nan] of an empty array. *)
Definition np_mean (a : list Q) : option Q :=
  match a with
  | [] => None
  | _ :: _ => Some (np_sum a / inject_Z (Z.of_nat (length a)))
  end.

(** Lines 188, 192 and 193, for the trained function [predict]: the
    denormalised test predictions and the denormalised test labels. *)
Definition denormalized (scaler : MinMaxScaler.t) (predict : list Q -> Q)
  (X_test : list (list Q)) (y_test : list Q) : result (list Q * list Q) :=
  let test_predictions := map predict X_test in
  test_predictions_inv <- MinMaxScaler.inverse_transform scaler test_predictions ;;
  y_test_inv <- MinMaxScaler.inverse_transform scaler y_test ;;
  Return (test_predictions_inv, y_test_inv).

(** Line 230. *)
Definition mean_squared_difference (test_predictions_inv y_test_inv : list Q)
  : result (option Q) :=
  diff <- np_sub test_predictions_inv y_test_inv ;;
  Return (np_mean (map (fun d => d ^ 2) diff)).

Definition test_loss (scaler : MinMaxScaler.t) (predict : list Q -> Q)
  (X_test : list (list Q)) (y_test : list Q) : result (option Q) :=
  inv <- denormalized scaler predict X_test y_test ;;
  mean_squared_difference (fst inv) (snd inv).

(** The squared differences of the denormalised predictions and labels,
    pair by pair. *)
Definition squared_differences (scaler : MinMaxScaler.t)
  (preds labels : list Q) : list Q :=
  map (fun d => d ^ 2)
      (map (fun p => fst p - snd p)
           (combine (map (MinMaxScaler.inverse1 scaler) preds)
                    (map (MinMaxScaler.inverse1 scaler) labels))).



(** The same error measured on the normalised values. *)
Fixpoint normalized_squared_errors (preds labels : list Q) : list Q :=
  match preds, labels with
  | p :: ps, l :: ls => (p - l) ^ 2 :: normalized_squared_errors ps ls
  | _, _ => []
  end.


End Evaluate.

(** ** Calendar dates: the pandas operations of line 216

    [df['ds']] holds midnight timestamps (lines 31-32), modelled by their
    calendar date. *)

Module Dates.

Open Scope Z_scope.

Record date : Type := mk { year : Z; month : Z; day : Z }.

Definition is_leap (y : Z) : bool :=
  ((y mod 4 =? 0) && negb (y mod 100 =? 0)) || (y mod 400 =? 0).

Definition days_in_month (y m : Z) : Z :=
  if m =? 2 then (if is_leap y then 29 else 28)
  else if (m =? 4) || (m =? 6) || (m =? 9) || (m =? 11) then 30
  else 31.

Definition valid (d : date) : Prop :=
  1 <= month d <= 12 /\ 1 <= day d <= days_in_month (year d) (month d).

(** The order of timestamps. *)
Definition ltb (a b : date) : bool :=
  (year a <? year b)
  || ((year a =? year b)
      && ((month a <? month b)
          || ((month a =? month b) && (day a <? day b)))).

Definition leb (a b : date) : bool := negb (ltb b a).

Definition max (a b : date) : date := if ltb a b then b else a.

(** [df['ds'].max()] on a column with at least one row. *)
Definition column_max (ds : list date) : result date :=
  match ds with
  | [] => Raise ValueError
  | d :: rest => Return (fold_left max rest d)
  end.

(** [d + pd.DateOffset(years=n)]: same month, the day clipped to the
    length of the month reached. *)
Definition add_years (d : date) (n : Z) : date :=
  let y := year d + n in
  {| year := y; month := month d;
     day := Z.min (day d) (days_in_month y (month d)) |}.

(** The year-end offset behind [freq='Y']. *)
Definition is_on_offset (d : date) : bool :=
  (month d =? 12) && (day d =? 31).

Definition rollforward (d : date) : date :=
  if is_on_offset d then d else {| year := year d; month := 12; day := 31 |}.

(** [pd.date_range(start=start, periods=periods, freq='Y')]. *)
Definition date_range (start : date) (periods : nat) : list date :=
  let first := rollforward start in
  map (fun i => {| year := year first + Z.of_nat i; month := 12; day := 31 |})
      (seq 0 periods).

(** Line 216. *)
Definition future_dates (last_observed : date) (periods : nat) : list date :=
  date_range (add_years last_observed 1) periods.

End Dates.

(** ** The LSTM section as a whole (lines 150-232)

    [fit_model] stands for building, compiling and fitting the network on
    the training windows (lines 178-184): it returns the trained function
    or raises. *)

Module Lstm.

Record outputs : Type := mk {
  scaler : MinMaxScaler.t;
  scaled_data : list Q;
  X : list (list Q);
  y : list Q;
  test_loss : option Q;
  future_predictions : list Q;
  future_predictions_inv : list Q;
  future_dates : list Dates.date
}.

Definition lstm_section
  (fit_model : list (list Q) -> list Q -> result (list Q -> Q))
  (df : list (Dates.date * Q)) (look_back horizon : nat) : result outputs :=
  fitted <- MinMaxScaler.fit_transform (map snd df) ;;
  let '(scaler, scaled_data) := fitted in
  windows <- Windowing.make_windows look_back scaled_data ;;
  let '(X, y) := windows in
  let '((X_train, X_test), (y_train, y_test)) :=
    Windowing.train_test_split X y in
  predict <- fit_model X_train y_train ;;
  train_predictions_inv <-
    MinMaxScaler.inverse_transform scaler (map predict X_train) ;;
  test_inv <- Evaluate.denormalized scaler predict X_test y_test ;;
  future_predictions <-
    Forecast.future_predictions look_back predict scaled_data horizon ;;
  future_predictions_inv <-
    MinMaxScaler.inverse_transform scaler future_predictions ;;
  last_observed <- Dates.column_max (map fst df) ;;
  let future_dates := Dates.future_dates last_observed horizon in
  test_loss <-
    Evaluate.mean_squared_difference (fst test_inv) (snd test_inv) ;;
  Return {| scaler := scaler; scaled_data := scaled_data; X := X; y := y;
            test_loss := test_loss;
            future_predictions := future_predictions;
            future_predictions_inv := future_predictions_inv;
            future_dates := future_dates |}.

(** The constants of the script. *)
Definition look_back : nat := 4.
Definition horizon : nat := 5.

(** A run to evaluate: the first eight years of the series (the values
    of [whorated_incidence] in [data_updater.py]) and, for the trained
    function, the mean of the window. *)
Definition first_of_january (y : Z) : Dates.date :=
  {| Dates.year := y; Dates.month := 1; Dates.day := 1 |}.

Definition eight_years : list (Dates.date * Q) :=
  [ (first_of_january 2000, 322%Q); (first_of_january 2001, 315%Q);
    (first_of_january 2002, 308%Q); (first_of_january 2003, 301%Q);
    (first_of_january 2004, 294%Q); (first_of_january 2005, 287%Q);
    (first_of_january 2006, 280%Q); (first_of_january 2007, 276%Q) ].

Definition mean_of_window (w : list Q) : Q :=
  (fold_right Qplus 0 w / inject_Z (Z.of_nat (length w)))%Q.

Definition fit_mean (X_train : list (list Q)) (y_train : list Q)
  : result (list Q -> Q) :=
  Return mean_of_window.

End Lstm.

(** ** [numpy]'s indirect quicksort

    [sort_values('ds')] sorts with [kind='quicksort'], the default: the
    rows are taken in the order [numpy]'s [argsort] gives for the [ds]
    column.  The definitions follow the generic [aquicksort] and
    [aheapsort] of [numpy]'s [npysort], statement by statement: an
    introsort on an array of positions [tosort], which partitions ranges
    of more than seventeen positions around the median of three, sorts
    shorter ranges by insertion and falls back on a heap sort when the
    depth limit is reached.  Loops whose end the C code leaves to the
    sentinels of the partition take a bound on their iterations; [None]
    says that the bound was reached. *)

Module Npysort.

Open Scope Z_scope.

Definition SMALL_QUICKSORT : Z := 16.

(** [npy_get_msb]. *)
Definition npy_get_msb (n : Z) : Z := Z.log2 n.

(** The state of [aquicksort]'s outer loop. *)
Record state : Type := mk_state {
  tosort : list nat;
  pl : Z;
  pr : Z;
  stack : list (Z * Z);
  depths : list Z;
  cdepth : Z
}.

Section Argsort.
(** The keys, [vv]. *)
Variable v : list Dates.date.

Definition key (i : nat) : Dates.date :=
  nth i v {| Dates.year := 0; Dates.month := 0; Dates.day := 0 |}.

(** [Tag::less(v[i], v[j])]. *)
Definition less (i j : nat) : bool := Dates.ltb (key i) (key j).

(** Reading and writing the entry at [p] of the array of positions. *)
Definition get (a : list nat) (p : Z) : nat := nth (Z.to_nat p) a O.

Definition put (a : list nat) (p : Z) (i : nat) : list nat :=
  if (0 <=? p) && (p <? Z.of_nat (length a))
  then firstn (Z.to_nat p) a ++ i :: skipn (S (Z.to_nat p)) a
  else a.

(** [INTP_SWAP] of the entries at [p] and [q]. *)
Definition swap (a : list nat) (p q : Z) : list nat :=
  let x := get a p in
  let y := get a q in
  put (put a p y) q x.

(** [do ++pi; while (less(v[*pi], vp))]. *)
Fixpoint scan_up (bound : nat) (a : list nat) (vp : Dates.date) (pi : Z)
  : option Z :=
  match bound with
  | O => None
  | S bound =>
      let pi := pi + 1 in
      if Dates.ltb (key (get a pi)) vp then scan_up bound a vp pi
      else Some pi
  end.

(** [do --pj; while (less(vp, v[*pj]))]. *)
Fixpoint scan_down (bound : nat) (a : list nat) (vp : Dates.date) (pj : Z)
  : option Z :=
  match bound with
  | O => None
  | S bound =>
      let pj := pj - 1 in
      if Dates.ltb vp (key (get a pj)) then scan_down bound a vp pj
      else Some pj
  end.

(** The [for (;;)] of the partition: the array and the final [pi]. *)
Fixpoint partition (bound : nat) (a : list nat) (vp : Dates.date)
  (pi pj : Z) : option (list nat * Z) :=
  match bound with
  | O => None
  | S bound =>
      match scan_up (S (length a)) a vp pi with
      | None => None
      | Some pi =>
          match scan_down (S (length a)) a vp pj with
          | None => None
          | Some pj =>
              if pi >=? pj then Some (a, pi)
              else partition bound (swap a pi pj) vp pi pj
          end
      end
  end.

(** The three conditional swaps that leave the median at [pm]. *)
Definition median_of_three (a : list nat) (pl pm pr : Z) : list nat :=
  let a := if less (get a pm) (get a pl) then swap a pm pl else a in
  let a := if less (get a pr) (get a pm) then swap a pr pm else a in
  let a := if less (get a pm) (get a pl) then swap a pm pl else a in
  a.

(** [while ((pr - pl) > SMALL_QUICKSORT)]: partition, push the larger
    part, go on with the smaller. *)
Fixpoint partition_while (bound : nat) (st : state) : option state :=
  match bound with
  | O => None
  | S bound =>
      let pl := pl st in
      let pr := pr st in
      if pr - pl >? SMALL_QUICKSORT then
        let pm := pl + Z.shiftr (pr - pl) 1 in
        let a := median_of_three (tosort st) pl pm pr in
        let vp := key (get a pm) in
        let pi := pl in
        let pj := pr - 1 in
        let a := swap a pm pj in
        match partition (S (length a)) a vp pi pj with
        | None => None
        | Some (a, pi) =>
            let pk := pr - 1 in
            let a := swap a pi pk in
            let cdepth := cdepth st - 1 in
            if pi - pl <? pr - pi then
              partition_while bound
                {| tosort := a; pl := pl; pr := pi - 1;
                   stack := (pi + 1, pr) :: stack st;
                   depths := cdepth :: depths st; cdepth := cdepth |}
            else
              partition_while bound
                {| tosort := a; pl := pi + 1; pr := pr;
                   stack := (pl, pi - 1) :: stack st;
                   depths := cdepth :: depths st; cdepth := cdepth |}
        end
      else Some st
  end.

(** [while (pj > pl && less(vp, v[*pk])) *pj-- = *pk--;]: at most
    [pi - pl] moves. *)
Fixpoint shift (moves : nat) (a : list nat) (pl : Z) (vp : Dates.date)
  (pj pk : Z) : list nat * Z :=
  match moves with
  | O => (a, pj)
  | S moves =>
      if (pj >? pl) && Dates.ltb vp (key (get a pk))
      then shift moves (put a pj (get a pk)) pl vp (pj - 1) (pk - 1)
      else (a, pj)
  end.

(** The body of the insertion sort for one [pi]. *)
Definition insert_one (a : list nat) (pl pi : Z) : list nat :=
  let vi := get a pi in
  let vp := key vi in
  let '(a, pj) := shift (Z.to_nat (pi - pl)) a pl vp pi (pi - 1) in
  put a pj vi.

(** [for (pi = pl + 1; pi <= pr; ++pi)]. *)
Fixpoint insertion_sort (count : nat) (a : list nat) (pl pi : Z)
  : list nat :=
  match count with
  | O => a
  | S count => insertion_sort count (insert_one a pl pi) pl (pi + 1)
  end.

(** [aheapsort] on the [n] positions from [first]; [a[k]] of the C code,
    which counts from one, is position [first - 1 + k]. *)
Fixpoint sift (bound : nat) (a : list nat) (first n : Z) (tmp : nat)
  (i j : Z) : option (list nat * Z) :=
  match bound with
  | O => None
  | S bound =>
      if j <=? n then
        let j :=
          if (j <? n)
             && less (get a (first - 1 + j)) (get a (first - 1 + (j + 1)))
          then j + 1 else j in
        if less tmp (get a (first - 1 + j))
        then sift bound (put a (first - 1 + i) (get a (first - 1 + j)))
               first n tmp j (j + j)
        else Some (a, i)
      else Some (a, i)
  end.

(** [for (l = n >> 1; l > 0; --l)]. *)
Fixpoint build_heap (l : nat) (a : list nat) (first n : Z)
  : option (list nat) :=
  match l with
  | O => Some a
  | S l' =>
      let lz := Z.of_nat l in
      let tmp := get a (first - 1 + lz) in
      match sift (S (length a)) a first n tmp lz (Z.shiftl lz 1) with
      | None => None
      | Some (a, i) => build_heap l' (put a (first - 1 + i) tmp) first n
      end
  end.

(** [for (; n > 1;)]. *)
Fixpoint extract (n : nat) (a : list nat) (first : Z) : option (list nat) :=
  match n with
  | S (S _ as n') =>
      let tmp := get a (first - 1 + Z.of_nat n) in
      let a := put a (first - 1 + Z.of_nat n) (get a (first - 1 + 1)) in
      match sift (S (length a)) a first (Z.of_nat n') tmp 1 2 with
      | None => None
      | Some (a, i) => extract n' (put a (first - 1 + i) tmp) first
      end
  | _ => Some a
  end.

Definition aheapsort (a : list nat) (first n : Z) : option (list nat) :=
  match build_heap (Z.to_nat (Z.shiftr n 1)) a first n with
  | None => None
  | Some a => extract (Z.to_nat n) a first
  end.

(** [while (1)]: sort the range at hand, then take the next one from
    the stack, until the stack is empty. *)
Fixpoint outer (bound : nat) (st : state) : option (list nat) :=
  match bound with
  | O => None
  | S bound =>
      let sorted :=
        if cdepth st <? 0 then
          match aheapsort (tosort st) (pl st) (pr st - pl st + 1) with
          | None => None
          | Some a =>
              Some {| tosort := a; pl := pl st; pr := pr st;
                      stack := stack st; depths := depths st;
                      cdepth := cdepth st |}
          end
        else
          match partition_while (S (length (tosort st))) st with
          | None => None
          | Some st =>
              Some {| tosort :=
                        insertion_sort (Z.to_nat (pr st - pl st))
                          (tosort st) (pl st) (pl st + 1);
                      pl := pl st; pr := pr st;
                      stack := stack st; depths := depths st;
                      cdepth := cdepth st |}
          end in
      match sorted with
      | None => None
      | Some st =>
          match stack st, depths st with
          | [], _ => Some (tosort st)
          | (l, r) :: stack', d :: depths' =>
              outer bound
                {| tosort := tosort st; pl := l; pr := r;
                   stack := stack'; depths := depths'; cdepth := d |}
          | _ :: _, [] => None
          end
      end
  end.

(** [aquicksort(vv, tosort, num)] on the positions [0 .. num - 1]. *)
Definition aquicksort : option (list nat) :=
  let num := length v in
  outer (2 * num + 1)
    {| tosort := seq 0 num; pl := 0; pr := Z.of_nat num - 1;
       stack := []; depths := [];
       cdepth := npy_get_msb (Z.of_nat num) * 2 |}.

End Argsort.

End Npysort.

(** ** The data updater: [TBDataUpdater.integrate_new_data]
       ([data_updater.py], lines 124-147)

    Rows carry the timestamp [pd.to_datetime] reads from their [ds]
    entry.  [sort_values('ds')] is library code; it is a parameter of
    [integrate_new_data], the facts below say which properties of its
    result they rest on, and [sort_values_quicksort] is the sort the
    call runs, [kind='quicksort'] being the default. *)

Module DataUpdater.

Record row : Type := mk_row {
  ds : Dates.date;
  y : Q;
  source : option String.string
}.

(** A frame of the data file: its rows, and whether it has a [source]
    column beside [ds] and [y]. *)
Record frame : Type := mk_frame {
  has_source : bool;
  rows : list row
}.

(** An entry of the list [get_new_who_data] returns. *)
Record data_point : Type := mk_point {
  point_year : Z;
  incidence : Q;
  point_source : String.string
}.

(** Lines 116-119. *)
Definition get_new_who_data : list data_point :=
  [ {| point_year := 2023; incidence := 215%Q;
       point_source := "WHO Global TB Report 2024"%string |};
    {| point_year := 2024; incidence := 210%Q;
       point_source := "WHO Preliminary Estimates"%string |} ].

(** [pd.to_datetime(year, format='%Y')]: the first of January of a year
    of four digits within the range of timestamps; [None] when it
    raises. *)
Definition to_datetime_year (year : Z) : option Dates.date :=
  if ((1678 <=? year) && (year <=? 2262))%Z
  then Some {| Dates.year := year; Dates.month := 1; Dates.day := 1 |}
  else None.

Fixpoint new_rows (new_data : list data_point) : option (list row) :=
  match new_data with
  | [] => Some []
  | p :: rest =>
      match to_datetime_year (point_year p), new_rows rest with
      | Some d, Some rest =>
          Some ({| ds := d; y := incidence p;
                   source := Some (point_source p) |} :: rest)
      | _, _ => None
      end
  end.

(** Lines 132-134: the frame of the batch, its columns renamed and its
    years read; [None] for an exception, the [KeyError] of an empty
    batch, whose frame has no [ds] column, or a year that cannot be
    read. *)
Definition new_df (new_data : list data_point) : option (list row) :=
  match new_data with
  | [] => None
  | _ :: _ => new_rows new_data
  end.

Definition date_eqb (a b : Dates.date) : bool :=
  (Dates.year a =? Dates.year b)%Z
  && (Dates.month a =? Dates.month b)%Z
  && (Dates.day a =? Dates.day b)%Z.

(** [drop_duplicates(subset='ds')], [keep='first'] being the default: a
    row is kept when no row before it has its [ds]. *)
Fixpoint drop_duplicates_from (seen : list Dates.date) (df : list row)
  : list row :=
  match df with
  | [] => []
  | r :: rest =>
      if existsb (date_eqb (ds r)) seen
      then drop_duplicates_from seen rest
      else r :: drop_duplicates_from (ds r :: seen) rest
  end.

Definition drop_duplicates (df : list row) : list row :=
  drop_duplicates_from [] df.

(** Lines 126-151 on the data file, [None] being a file from which
    [read_csv] and [to_datetime] give no frame: the content of the file
    afterwards and what the method returns, [None] when an exception is
    caught.  The batch brings a [source] column, which the frame written
    has even when the stored one had none. *)
Definition integrate_new_data (sort_values : list row -> list row)
  (data_file : option frame) (new_data : list data_point)
  : option frame * option frame :=
  match data_file with
  | None => (data_file, None)
  | Some current_df =>
      match new_df new_data with
      | None => (data_file, None)
      | Some new_df =>
          let updated_df := rows current_df ++ new_df in
          let updated_df := drop_duplicates (sort_values updated_df) in
          let updated_df := {| has_source := true; rows := updated_df |} in
          (Some updated_df, Some updated_df)
      end
  end.

Definition ascending (df : list row) : Prop :=
  StronglySorted (fun a b => Dates.leb (ds a) (ds b) = true) df.

Definition strictly_ascending (df : list row) : Prop :=
  StronglySorted (fun a b => Dates.ltb (ds a) (ds b) = true) df.

(** What every [kind] of [sort_values] gives of a frame: the same rows,
    in ascending order of [ds]. *)
Definition sorted_frame (df sorted : list row) : Prop :=
  Permutation sorted df /\ ascending sorted.

(** The row of period [d] in a frame: the first one. *)
Definition row_of (d : Dates.date) (df : list row) : option row :=
  find (fun r => date_eqb d (ds r)) df.

(** [df.take(indexer)]. *)
Definition take (df : list row) (indexer : list nat) : list row :=
  flat_map (fun i => match nth_error df i with
                     | Some r => [r]
                     | None => []
                     end)
           indexer.

(** [sort_values('ds')] as the call runs it: the rows taken in the order
    of [numpy]'s indirect quicksort on the [ds] column.  The frame is
    left as it is should the quicksort reach a bound of its loops; the
    evaluations below give the indexer it returns. *)
Definition sort_values_quicksort (df : list row) : list row :=
  match Npysort.aquicksort (map ds df) with
  | Some indexer => take df indexer
  | None => df
  end.

(** Stored files to evaluate on, as [read_csv] gives them, without a
    [source]: the series of [whorated_incidence] (lines 40-46) and its
    last two years. *)
Definition stored_row (year : Z) (incidence : Q) : row :=
  {| ds := {| Dates.year := year; Dates.month := 1; Dates.day := 1 |};
     y := incidence; source := None |}.

Definition whorated_incidence : list (Z * Z) :=
  [ (2000, 322); (2001, 315); (2002, 308); (2003, 301); (2004, 294);
    (2005, 287); (2006, 280); (2007, 276); (2008, 273); (2009, 270);
    (2010, 267); (2011, 264); (2012, 258); (2013, 256); (2014, 252);
    (2015, 248); (2016, 244); (2017, 240); (2018, 238); (2019, 235);
    (2020, 229); (2021, 225); (2022, 220); (2023, 215) ]%Z.

Definition stored_2000_2023 : list row :=
  map (fun p => stored_row (fst p) (inject_Z (snd p))) whorated_incidence.

Definition stored_2022_2023 : list row :=
  [ stored_row 2022 220%Q; stored_row 2023 215%Q ].

(** A batch that revises a year of the series. *)
Definition revision_2005 : list data_point :=
  [ {| point_year := 2005; incidence := 290%Q;
       point_source := "WHO revised estimate"%string |} ].

End DataUpdater.

(** ** The dates of the plots (lines 135 and 212) *)

Module Plots.

(** Line 212:
    [df['ds'].iloc[train_size + look_back :
                   train_size + look_back + len(test_predictions_inv)]],
    [train_size] being the one of line 169. *)
Definition test_dates (A : Type) (ds : list A)
  (train_size look_back n_test : nat) : list A :=
  Np.slice ds (train_size + look_back) (train_size + look_back + n_test).

(** Line 135:
    [pd.date_range(start=df['ds'].max(), periods=6, freq='Y')[1:]]. *)
Definition arima_future_dates (last_observed : Dates.date) : list Dates.date :=
  tl (Dates.date_range last_observed 6).

End Plots.

(** ** Validation of the updated data
       ([TBDataUpdater.validate_updated_data], lines 153-181)

    The warnings the method logs are returned with its result. *)

Module Validation.

Open Scope Z_scope.

(** The day number of a date in the proleptic Gregorian calendar; two
    midnight timestamps differ by the difference of their day numbers. *)
Definition days_before_year (y : Z) : Z :=
  let p := y - 1 in 365 * p + p / 4 - p / 100 + p / 400.

Definition days_before_month (y m : Z) : Z :=
  fold_right Z.add 0
    (map (fun i => Dates.days_in_month y (Z.of_nat i))
         (seq 1 (Z.to_nat (m - 1)))).

Definition to_ordinal (d : Dates.date) : Z :=
  days_before_year (Dates.year d)
  + days_before_month (Dates.year d) (Dates.month d)
  + Dates.day d.

(** [dates.diff().dt.days]: no value for the first row, then the days
    from each row to the next. *)
Fixpoint diff_from (previous : Dates.date) (dates : list Dates.date)
  : list (option Z) :=
  match dates with
  | [] => []
  | d :: rest => Some (to_ordinal d - to_ordinal previous) :: diff_from d rest
  end.

Definition date_diffs (dates : list Dates.date) : list (option Z) :=
  match dates with
  | [] => []
  | d :: rest => None :: diff_from d rest
  end.

(** [(date_diffs != 365.0) & (~pd.isna(date_diffs))]. *)
Definition gaps (dates : list Dates.date) : list bool :=
  map (fun x => match x with
                | Some days => negb (days =? 365)
                | None => false
                end)
      (date_diffs dates).

(** [y_values.min() < 0 or y_values.max() > 1000]; on an empty column
    both reductions are [nan] and both comparisons false. *)
Definition unusual_values (ys : list Q) : bool :=
  match ys with
  | [] => false
  | v :: rest =>
      negb (Qle_bool 0 (fold_left Qmin rest v))
      || negb (Qle_bool (fold_left Qmax rest v) 1000)
  end.

(** [updated_df.duplicated(subset='ds')], [keep='first']: a row is
    marked when a row before it has its [ds]. *)
Fixpoint duplicated_from (seen : list Dates.date)
  (df : list DataUpdater.row) : list bool :=
  match df with
  | [] => []
  | r :: rest =>
      if existsb (DataUpdater.date_eqb (DataUpdater.ds r)) seen
      then true :: duplicated_from seen rest
      else false :: duplicated_from (DataUpdater.ds r :: seen) rest
  end.

Definition duplicated (df : list DataUpdater.row) : list bool :=
  duplicated_from [] df.

(** [Series.any()]. *)
Definition any (flags : list bool) : bool := existsb (fun b => b) flags.

Record report : Type := mk_report {
  gap_warning : bool;
  range_warning : bool;
  duplicate_warning : bool;
  returned : bool
}.

Definition validate_updated_data (updated_df : list DataUpdater.row)
  : report :=
  {| gap_warning := any (gaps (map DataUpdater.ds updated_df));
     range_warning := unusual_values (map DataUpdater.y updated_df);
     duplicate_warning := any (duplicated updated_df);
     returned := true |}.

(** Rows dated the first of January of consecutive years. *)
Definition years_from (first : Z) (n : nat) : list Z :=
  map (fun i => first + Z.of_nat i) (seq 0 n).

End Validation.

(** ** The update cycle ([data_updater.py], lines 48-107 and 229-262)

    The file system is the data file and the backup directory.
    [integrate] stands for [integrate_new_data] on the file and
    [after_update] for the steps that follow an update (validation,
    retraining, documentation); [column_max] is [Series.max]. *)

Module Cycle.

(** A Python value in or from a column.  A column read by [pd.read_csv],
    which is called without date parsing, holds none that is a
    [Timestamp]. *)
Inductive value : Type :=
| Int (z : Z)
| Float (q : option Q)
| Bool (b : bool)
| Str (s : String.string)
| Timestamp (d : Dates.date).

Definition frame : Type := list (String.string * list value).

Definition is_timestamp (v : value) : bool :=
  match v with
  | Timestamp _ => true
  | _ => false
  end.

Definition read_by_read_csv (df : frame) : Prop :=
  forall name column v,
    In (name, column) df -> In v column -> is_timestamp v = false.

(** The data file: absent, present but not readable as CSV, or present
    with the frame [pd.read_csv] gives.  The backups by file name. *)
Inductive file : Type :=
| Absent
| Unreadable
| Csv (df : frame).

Record files : Type := mk_files {
  data_file : file;
  backups : list (String.string * frame)
}.

(** [pd.read_csv(self.data_file)]; [None] when it raises. *)
Definition read_csv (f : file) : option frame :=
  match f with
  | Csv df => Some df
  | Absent | Unreadable => None
  end.

(** [df[name]]; [None] for the [KeyError]. *)
Fixpoint getitem (df : frame) (name : String.string) : option (list value) :=
  match df with
  | [] => None
  | (n, column) :: rest =>
      if String.eqb n name then Some column else getitem rest name
  end.

(** [v.year]; [None] for the [AttributeError]. *)
Definition getattr_year (v : value) : option Z :=
  match v with
  | Timestamp d => Some (Dates.year d)
  | _ => None
  end.

Section Cycle.
Variable column_max : list value -> option value.
Variable integrate : files -> files * option frame.
Variable after_update : files -> frame -> files * bool.

(** Lines 89-107; every exception is caught and gives [False]. *)
Definition has_new_who_data (fs : files) : bool :=
  match read_csv (data_file fs) with
  | None => false
  | Some current_df =>
      match getitem current_df "ds" with
      | None => false
      | Some column =>
          match column_max column with
          | None => false
          | Some m =>
              match getattr_year m with
              | None => false
              | Some max_year =>
                  let latest_available := 2023%Z in
                  if (max_year <? latest_available)%Z then true else false
              end
          end
      end
  end.

(** Lines 57-87. *)
Definition fetch_who_tb_data (fs : files) : files * option frame :=
  if has_new_who_data fs then integrate fs else (fs, None).

(** Lines 48-55, at the time stamp [now]; [None] when [read_csv]
    raises. *)
Definition backup_existing_data (now : String.string) (fs : files)
  : option files :=
  match data_file fs with
  | Absent => Some fs
  | Unreadable => None
  | Csv df =>
      Some {| data_file := data_file fs;
              backups :=
                (now, df)
                :: filter (fun b => negb (String.eqb (fst b) now))
                          (backups fs) |}
  end.

(** Lines 229-262. *)
Definition run_automatic_update (now : String.string) (fs : files)
  : files * bool :=
  match backup_existing_data now fs with
  | None => (fs, false)
  | Some fs =>
      let '(fs, new_data) := fetch_who_tb_data fs in
      match new_data with
      | Some updated_df => after_update fs updated_df
      | None => (fs, true)
      end
  end.

End Cycle.

End Cycle.

(** * Proofs *)

(** ** Windowing *)

Section WindowingFacts.
Variable A : Type.
Variable look_back : nat.
Variable scaled_data : list A.

Local Notation "'context'" :=
  (fun i => Np.slice scaled_data i (i + look_back)).

Lemma for_in_seq (n a : nat) (X : list (list A)) (y : list A) :
  a + n + look_back <= length scaled_data ->
  exists labels,
    Windowing.for_in look_back scaled_data (seq a n) (X, y)
      = Return (X ++ map context (seq a n), y ++ labels)
    /\ length labels = n
    /\ forall k, k < n ->
         nth_error labels k = nth_error scaled_data (a + k + look_back).
Proof.
  revert a X y. induction n as [|n IH]; intros a X y Hle.
  - exists []. cbn. rewrite !app_nil_r. repeat split; intros; lia.
  - cbn [seq Windowing.for_in Windowing.body].
    unfold Np.getitem.
    destruct (nth_error scaled_data (a + look_back)) as [v|] eqn:Hv.
    2:{ apply nth_error_None in Hv. lia. }
    cbn [bind].
    destruct (IH (S a) (X ++ [context a]) (y ++ [v]))
      as (ls & Hrun & Hlen & Hnth); [lia|].
    exists (v :: ls). split; [|split].
    + cbn beta in Hrun. rewrite Hrun. cbn [map].
      now rewrite <- !app_assoc.
    + cbn. now rewrite Hlen.
    + intros [|k] Hk; cbn [nth_error].
      * now rewrite Nat.add_0_r, Hv.
      * rewrite Hnth by lia. f_equal. lia.
Qed.

Lemma slice_nth (i k : nat) :
  k < look_back ->
  nth_error (context i) k = nth_error scaled_data (i + k).
Proof.
  intros Hk. unfold Np.slice.
  replace (i + look_back - i) with look_back by lia.
  rewrite nth_error_firstn.
  destruct (Nat.ltb_spec k look_back); [|lia].
  now rewrite nth_error_skipn.
Qed.

Lemma slice_length (i : nat) :
  i + look_back <= length scaled_data ->
  length (context i) = look_back.
Proof.
  intros Hi. unfold Np.slice.
  rewrite length_firstn, length_skipn. lia.
Qed.

Lemma make_windows_lengths :
  look_back < length scaled_data ->
  exists X y,
    Windowing.make_windows look_back scaled_data = Return (X, y)
    /\ length X = length scaled_data - look_back
    /\ length y = length scaled_data - look_back.
Proof.
  intros Hlen. unfold Windowing.make_windows.
  destruct (for_in_seq (length scaled_data - look_back) 0 [] [])
    as (labels & Hrun & Hlab & _); [lia|].
  do 2 eexists. split; [exact Hrun|].
  cbn [app]. now rewrite length_map, length_seq.
Qed.

End WindowingFacts.

(** C3: a series longer than the window gives exactly [N - W] pairs;
    pair [i] has as context the entries [i .. i+W-1] of the series and as
    label the entry [i+W]; the pairs are in the order of the series. *)
Theorem make_windows_pairs (A : Type) (look_back : nat) (scaled_data : list A) :
  look_back < length scaled_data ->
  exists X y,
    Windowing.make_windows look_back scaled_data = Return (X, y)
    /\ length X = length scaled_data - look_back
    /\ length y = length scaled_data - look_back
    /\ forall i, i < length scaled_data - look_back ->
         exists context label,
           nth_error X i = Some context
           /\ nth_error y i = Some label
           /\ context = Np.slice scaled_data i (i + look_back)
           /\ length context = look_back
           /\ (forall k, k < look_back ->
                 nth_error context k = nth_error scaled_data (i + k))
           /\ nth_error scaled_data (i + look_back) = Some label.
Proof.
  intros Hlen. set (n := length scaled_data - look_back).
  destruct (@for_in_seq A look_back scaled_data n 0 [] [])
    as (labels & Hrun & Hlab & Hnth); [subst n; lia|].
  cbn [app] in Hrun.
  exists (map (fun i => Np.slice scaled_data i (i + look_back)) (seq 0 n)), labels.
  split; [exact Hrun|]. split; [now rewrite length_map, length_seq|].
  split; [exact Hlab|]. intros i Hi.
  destruct (nth_error labels i) as [label|] eqn:Hl.
  2:{ apply nth_error_None in Hl. lia. }
  exists (Np.slice scaled_data i (i + look_back)), label.
  split.
  { rewrite nth_error_map, nth_error_seq.
    destruct (Nat.ltb_spec i n); [reflexivity|lia]. }
  split; [reflexivity|]. split; [reflexivity|].
  split; [apply slice_length; subst n; lia|].
  split; [intros k Hk; now apply slice_nth|].
  rewrite <- Hl, (Hnth i Hi). reflexivity.
Qed.

Lemma make_windows_pairs_witness :
  exists X y,
    Windowing.make_windows 4 [322; 315; 308; 301; 294; 287; 280; 276]
      = Return (X, y)
    /\ length X = 4 /\ length y = 4.
Proof.
  destruct (@make_windows_pairs nat 4 [322; 315; 308; 301; 294; 287; 280; 276])
    as (X & y & Hrun & HX & Hy & _); [cbn; lia|].
  exists X, y. cbn in HX, Hy. auto.
Defined.

(** C6, as the code has it: a series no longer than the window raises
    nothing in the windowing loop; the loop body never runs and both
    lists stay empty. *)
Theorem make_windows_short_series (A : Type) (look_back : nat)
  (scaled_data : list A) :
  length scaled_data <= look_back ->
  Windowing.make_windows look_back scaled_data = Return ([], []).
Proof.
  intros Hlen. unfold Windowing.make_windows.
  replace (length scaled_data - look_back) with 0 by lia.
  reflexivity.
Qed.

Lemma make_windows_short_series_witness :
  Windowing.make_windows 4 [322; 315; 308] = Return ([], []).
Proof.
  apply (@make_windows_short_series nat 4 [322; 315; 308]). cbn. lia.
Defined.

(** C6 as stated fails: three values and a window of four raise nothing. *)
Lemma make_windows_short_series_no_error :
  length [322; 315; 308] <= 4
  /\ ~ Py.raises (Windowing.make_windows 4 [322; 315; 308]).
Proof.
  split; [cbn; lia|]. intros [e He]. vm_compute in He. discriminate He.
Qed.

(** ** Recursive forecast *)

Section PredictionFacts.
Variable A : Type.
Variable predict : list A -> A.

Local Notation "'slide'" := (Forecast.slide predict).
Local Notation "'predictions'" := (Forecast.predictions predict).

Lemma predictions_length (c : list A) (n : nat) :
  length (predictions c n) = n.
Proof. unfold Forecast.predictions. now rewrite length_map, length_seq. Qed.

Lemma predictions_nth (c : list A) (n j : nat) :
  j < n -> nth_error (predictions c n) j = Some (predict (Nat.iter j slide c)).
Proof.
  intros Hj. unfold Forecast.predictions. rewrite nth_error_map, nth_error_seq.
  destruct (Nat.ltb_spec j n); [reflexivity|lia].
Qed.

Lemma predictions_prefix (c : list A) (n j : nat) :
  j <= n -> firstn j (predictions c n) = predictions c j.
Proof.
  intros Hj. unfold Forecast.predictions. rewrite firstn_map. f_equal.
  replace n with (j + (n - j)) by lia.
  rewrite seq_app, firstn_app, length_seq, Nat.sub_diag, firstn_O, app_nil_r.
  apply firstn_all2. rewrite length_seq. lia.
Qed.

Lemma predictions_snoc (c : list A) (j : nat) :
  predictions c (S j) = predictions c j ++ [predict (Nat.iter j slide c)].
Proof.
  unfold Forecast.predictions. rewrite seq_S, map_app. reflexivity.
Qed.

Lemma tl_skipn (j : nat) (l : list A) : tl (skipn j l) = skipn (S j) l.
Proof.
  revert l. induction j as [|j IH]; intros [|x l]; try reflexivity.
  exact (IH l).
Qed.

End PredictionFacts.

Section ForecastFacts.
Variable A : Type.
Variable look_back : nat.
Variable predict : list A -> A.

Hypothesis look_back_pos : 0 < look_back.

Local Notation "'slide'" := (Forecast.slide predict).
Local Notation "'loop'" := (Forecast.loop look_back predict).
Local Notation "'predictions'" := (Forecast.predictions predict).

Lemma slide_length (c : list A) :
  length c = look_back -> length (slide c) = look_back.
Proof.
  unfold Forecast.slide. intros Hc. destruct c as [|x t]; cbn in *; [lia|].
  rewrite length_app. cbn. lia.
Qed.

Lemma iter_slide_length (j : nat) (c : list A) :
  length c = look_back -> length (Nat.iter j slide c) = look_back.
Proof.
  intros Hc. induction j as [|j IH]; cbn; [exact Hc|].
  now apply slide_length.
Qed.

Lemma body_slides (c acc : list A) :
  length c = look_back ->
  Forecast.body look_back predict (c, acc)
  = Return (slide c, acc ++ [predict c]).
Proof.
  intros Hc. unfold Forecast.body, Np.reshape_1_w_1.
  rewrite Hc, Nat.eqb_refl. cbn [bind].
  destruct c as [|x t]; [cbn in Hc; lia|].
  unfold Forecast.slide, Np.roll_left, Np.setitem_last.
  destruct (t ++ [x]) as [|z u] eqn:Htx.
  { now destruct t. }
  rewrite <- Htx, removelast_last. reflexivity.
Qed.

Lemma loop_runs (n : nat) (c acc : list A) :
  length c = look_back ->
  loop n (c, acc) = Return (Nat.iter n slide c, acc ++ predictions c n).
Proof.
  revert c acc. induction n as [|n IH]; intros c acc Hc.
  - cbn. now rewrite app_nil_r.
  - cbn [Forecast.loop]. rewrite body_slides by exact Hc. cbn [bind].
    rewrite IH by now apply slide_length.
    rewrite <- Nat.iter_succ_r. f_equal. f_equal.
    rewrite <- app_assoc. f_equal. unfold Forecast.predictions.
    cbn [seq map app Nat.iter]. f_equal.
    rewrite <- seq_shift, map_map. apply map_ext. intros j.
    now rewrite <- Nat.iter_succ_r.
Qed.

(** The context after [j] iterations is rebuilt from the initial context
    and the outputs. *)
Lemma context_rebuilt (c : list A) (j : nat) :
  length c = look_back ->
  Nat.iter j slide c = Forecast.context_from_outputs c (predictions c j) j.
Proof.
  intros Hc. unfold Forecast.context_from_outputs.
  induction j as [|j IH].
  - cbn. now rewrite app_nil_r.
  - rewrite firstn_all2 by (rewrite predictions_length; lia).
    rewrite firstn_all2 in IH by (rewrite predictions_length; lia).
    change (Nat.iter (S j) slide c) with (slide (Nat.iter j slide c)).
    unfold Forecast.slide at 1.
    rewrite predictions_snoc, app_assoc, skipn_app.
    rewrite length_app, predictions_length, Hc.
    replace (S j - (look_back + j)) with 0 by lia.
    change (skipn 0 [predict (Nat.iter j slide c)])
      with [predict (Nat.iter j slide c)].
    f_equal. rewrite IH at 1. apply tl_skipn.
Qed.

End ForecastFacts.

(** C1: the recursion is the sliding window.  With a context of the
    window's width and a horizon of at least one, the first prediction is
    computed from the initial context; at every step the context is the
    one rebuilt from the initial context and the outputs so far, the
    prediction is computed from it, and the next context is that context
    without its oldest entry and with the prediction appended. *)
Theorem forecast_sliding_window (A : Type) (look_back : nat)
  (predict : list A -> A) (initial_context : list A) (horizon : nat) :
  0 < look_back ->
  length initial_context = look_back ->
  1 <= horizon ->
  exists last_sequence outs,
    Forecast.forecast look_back predict initial_context horizon
      = Return (last_sequence, outs)
    /\ nth_error outs 0 = Some (predict initial_context)
    /\ forall j, j < horizon ->
         exists context,
           Forecast.forecast look_back predict initial_context j
             = Return (context, firstn j outs)
           /\ context = Forecast.context_from_outputs initial_context outs j
           /\ length context = look_back
           /\ nth_error outs j = Some (predict context)
           /\ Forecast.forecast look_back predict initial_context (S j)
              = Return (tl context ++ [predict context], firstn (S j) outs).
Proof.
  intros Hpos Hc Hk. unfold Forecast.forecast.
  exists (Nat.iter horizon (Forecast.slide predict) initial_context),
         (Forecast.predictions predict initial_context horizon).
  split; [now rewrite loop_runs|].
  split; [now rewrite predictions_nth by lia|].
  intros j Hj.
  exists (Nat.iter j (Forecast.slide predict) initial_context).
  rewrite !loop_runs by assumption.
  rewrite !predictions_prefix by lia.
  split; [reflexivity|]. split.
  { rewrite (@context_rebuilt _ look_back predict Hpos initial_context j Hc).
    unfold Forecast.context_from_outputs.
    now rewrite !predictions_prefix by lia. }
  split; [now apply iter_slide_length|].
  split; [now apply predictions_nth|]. reflexivity.
Qed.

Lemma forecast_sliding_window_witness :
  exists last_sequence outs,
    Forecast.forecast 4 (fun c => list_sum c) [1; 2; 3; 4] 5
      = Return (last_sequence, outs)
    /\ nth_error outs 0 = Some 10.
Proof.
  destruct (@forecast_sliding_window nat 4 (fun c => list_sum c) [1; 2; 3; 4] 5)
    as (l & o & Hrun & Hfirst & _); [lia | reflexivity | lia |].
  exists l, o. split; [exact Hrun | exact Hfirst].
Defined.

(** C2: with a context of the window's width and a horizon [K >= 1] the
    forecast returns, and returns exactly [K] values; they are in the
    order of the steps: the values held after [j] steps are the first
    [j] of the values returned. *)
Theorem forecast_length (A : Type) (look_back : nat)
  (predict : list A -> A) (initial_context : list A) (horizon : nat) :
  0 < look_back ->
  length initial_context = look_back ->
  1 <= horizon ->
  exists last_sequence outs,
    Forecast.forecast look_back predict initial_context horizon
      = Return (last_sequence, outs)
    /\ length outs = horizon
    /\ forall j, j <= horizon ->
         exists context,
           Forecast.forecast look_back predict initial_context j
           = Return (context, firstn j outs).
Proof.
  intros Hpos Hc Hk. unfold Forecast.forecast.
  exists (Nat.iter horizon (Forecast.slide predict) initial_context),
         (Forecast.predictions predict initial_context horizon).
  split; [now rewrite loop_runs|].
  split; [apply predictions_length|].
  intros j Hj.
  exists (Nat.iter j (Forecast.slide predict) initial_context).
  rewrite loop_runs by assumption. now rewrite predictions_prefix.
Qed.

Lemma forecast_length_witness :
  exists last_sequence outs,
    Forecast.forecast Lstm.look_back (fun c => list_sum c) [1; 2; 3; 4]
      Lstm.horizon
      = Return (last_sequence, outs)
    /\ length outs = 5.
Proof.
  destruct (@forecast_length nat Lstm.look_back (fun c => list_sum c)
              [1; 2; 3; 4] Lstm.horizon)
    as (l & o & Hrun & Hlen & _);
    [unfold Lstm.look_back; lia | reflexivity | unfold Lstm.horizon; lia |].
  exists l, o. split; [exact Hrun | exact Hlen].
Defined.

(** C7: nothing stands between a prediction and its use.  Whatever value
    the trained function returns at step [j], that very value is the
    [j]-th output and the newest entry of the next context; if it lies
    outside an interval, [0, 1] or any other, so does the output. *)
Theorem forecast_no_guard (look_back : nat) (predict : list Q -> Q)
  (initial_context : list Q) (horizon j : nat) :
  0 < look_back ->
  length initial_context = look_back ->
  j < horizon ->
  exists context next_context last_sequence outs,
    Forecast.forecast look_back predict initial_context j
      = Return (context, firstn j outs)
    /\ Forecast.forecast look_back predict initial_context (S j)
      = Return (next_context, firstn j outs ++ [predict context])
    /\ Forecast.forecast look_back predict initial_context horizon
      = Return (last_sequence, outs)
    /\ nth_error outs j = Some (predict context)
    /\ next_context = tl context ++ [predict context]
    /\ nth_error next_context (look_back - 1) = Some (predict context)
    /\ forall lo hi : Q,
         ~ (lo <= predict context /\ predict context <= hi)%Q ->
         exists p, nth_error outs j = Some p
                   /\ nth_error next_context (look_back - 1) = Some p
                   /\ ~ (lo <= p /\ p <= hi)%Q.
Proof.
  intros Hpos Hc Hj. unfold Forecast.forecast.
  set (context := Nat.iter j (Forecast.slide predict) initial_context).
  assert (Hlen : length context = look_back)
    by (now apply iter_slide_length).
  assert (Hnew : nth_error (tl context ++ [predict context]) (look_back - 1)
                 = Some (predict context)).
  { rewrite nth_error_app2; destruct context as [|x t]; cbn in *; try lia.
    now replace (look_back - 1 - length t) with 0 by lia. }
  exists context, (tl context ++ [predict context]),
         (Nat.iter horizon (Forecast.slide predict) initial_context),
         (Forecast.predictions predict initial_context horizon).
  rewrite !loop_runs by assumption.
  rewrite !predictions_prefix by lia.
  split; [reflexivity|].
  split; [now rewrite predictions_snoc|].
  split; [reflexivity|].
  split; [now apply predictions_nth|].
  split; [reflexivity|].
  split; [exact Hnew|].
  intros lo hi Hout. exists (predict context).
  split; [now apply predictions_nth|]. split; [exact Hnew | exact Hout].
Qed.

Lemma forecast_no_guard_witness :
  exists context next_context last_sequence outs,
    Forecast.forecast 4 (fun c => fold_right Qplus 2%Q c)
      [0; 1 # 2; 1 # 4; 1]%Q 1
      = Return (context, firstn 1 outs)
    /\ Forecast.forecast 4 (fun c => fold_right Qplus 2%Q c)
      [0; 1 # 2; 1 # 4; 1]%Q 5
      = Return (last_sequence, outs)
    /\ next_context
       = tl context ++ [fold_right Qplus 2%Q context].
Proof.
  destruct (@forecast_no_guard 4 (fun c => fold_right Qplus 2%Q c)
              [0; 1 # 2; 1 # 4; 1]%Q 5 1)
    as (c & n & l & o & H1 & _ & H3 & _ & H5 & _);
    [lia | reflexivity | lia |].
  exists c, n, l, o. split; [exact H1|]. split; [exact H3 | exact H5].
Defined.

(** ** Normalisation *)

Section ScalerFacts.

Import MinMaxScaler.
Open Scope Q_scope.

Lemma ten_eps_pos : 0 < 10 * eps.
Proof. reflexivity. Qed.

Lemma handle_zeros_pos (r : Q) : 0 < handle_zeros_in_scale r.
Proof.
  unfold handle_zeros_in_scale.
  destruct (Qle_bool (10 * eps) r) eqn:Hr; [|reflexivity].
  apply Qle_bool_iff in Hr.
  eapply Qlt_le_trans; [exact ten_eps_pos | exact Hr].
Qed.

Lemma handle_zeros_keeps (r : Q) :
  10 * eps <= r -> handle_zeros_in_scale r = r.
Proof.
  intros Hr. unfold handle_zeros_in_scale.
  apply Qle_bool_iff in Hr. now rewrite Hr.
Qed.

Lemma handle_zeros_of_zero (r : Q) :
  r == 0 -> handle_zeros_in_scale r = 1.
Proof.
  intros Hr. unfold handle_zeros_in_scale.
  destruct (Qle_bool (10 * eps) r) eqn:Hb; [|reflexivity].
  apply Qle_bool_iff in Hb. rewrite Hr in Hb.
  exfalso. revert Hb. apply Qlt_not_le. exact ten_eps_pos.
Qed.

(** What [fit] stores, in terms of the range it kept. *)
Lemma fit_attributes (X : list Q) (sc : t) :
  fit X = Return sc ->
  exists x rest,
    X = x :: rest
    /\ data_min_ sc = fold_left Qmin rest x
    /\ data_max_ sc = fold_left Qmax rest x
    /\ data_range_ sc = data_max_ sc - data_min_ sc
    /\ scale_ sc = (1 - 0) / handle_zeros_in_scale (data_range_ sc)
    /\ min_ sc = 0 - data_min_ sc * scale_ sc.
Proof.
  destruct X as [|x rest]; cbn; [discriminate|].
  intros H. injection H as <-. exists x, rest. cbn. repeat split.
Qed.

Lemma fit_scale_pos (X : list Q) (sc : t) :
  fit X = Return sc -> 0 < scale_ sc.
Proof.
  intros H. destruct (fit_attributes X H) as (x & rest & _ & _ & _ & _ & Hs & _).
  rewrite Hs. apply Qlt_shift_div_l; [apply handle_zeros_pos|].
  rewrite Qmult_0_l. reflexivity.
Qed.

(** The round trip of one value needs no more than a scale that is not
    zero. *)
Lemma inverse1_transform1 (sc : t) (v : Q) :
  ~ scale_ sc == 0 -> inverse1 sc (transform1 sc v) == v.
Proof.
  intros Hs. unfold inverse1, transform1. field. exact Hs.
Qed.

Lemma fit_transform_inv (X : list Q) (sc : t) (scaled : list Q) :
  fit_transform X = Return (sc, scaled) ->
  fit X = Return sc /\ X <> [] /\ scaled = map (transform1 sc) X.
Proof.
  unfold fit_transform. destruct (fit X) as [sc'|e] eqn:Hfit; cbn; [|discriminate].
  destruct X as [|x rest]; [discriminate Hfit|]. cbn.
  intros H. injection H as <- <-. repeat split. discriminate.
Qed.

(** The minimum and the maximum [fit] keeps are entries of the column
    that bound all of it. *)
Lemma fold_min_spec (rest : list Q) (x : Q) :
  In (fold_left Qmin rest x) (x :: rest)
  /\ Forall (fun v => fold_left Qmin rest x <= v) (x :: rest).
Proof.
  revert x. induction rest as [|r rest IH]; intros x; cbn [fold_left].
  - split; [now left|]. constructor; [apply Qle_refl | constructor].
  - destruct (IH (Qmin x r)) as [Hin Hall]. inversion Hall as [|? ? Hhd Htl]; subst.
    split.
    + destruct Hin as [Hin|Hin]; [|now right; right].
      rewrite <- Hin. unfold Qmin, GenericMinMax.gmin.
      destruct (x ?= r); [now left | now left | now right; left].
    + constructor; [|constructor; [|exact Htl]].
      * eapply Qle_trans; [exact Hhd | apply Q.le_min_l].
      * eapply Qle_trans; [exact Hhd | apply Q.le_min_r].
Qed.

Lemma fold_max_spec (rest : list Q) (x : Q) :
  In (fold_left Qmax rest x) (x :: rest)
  /\ Forall (fun v => v <= fold_left Qmax rest x) (x :: rest).
Proof.
  revert x. induction rest as [|r rest IH]; intros x; cbn [fold_left].
  - split; [now left|]. constructor; [apply Qle_refl | constructor].
  - destruct (IH (Qmax x r)) as [Hin Hall]. inversion Hall as [|? ? Hhd Htl]; subst.
    split.
    + destruct Hin as [Hin|Hin]; [|now right; right].
      rewrite <- Hin. unfold Qmax, GenericMinMax.gmax.
      destruct (x ?= r); [now left | now right; left | now left].
    + constructor; [|constructor; [|exact Htl]].
      * eapply Qle_trans; [apply Q.le_max_l | exact Hhd].
      * eapply Qle_trans; [apply Q.le_max_r | exact Hhd].
Qed.

End ScalerFacts.

(** C4: the round trip.  On a series whose minimum and maximum differ,
    the inverse transform of the scaled series is the series again, entry
    by entry, and so for each of its values; the equality is the one of
    rational numbers. *)
Theorem normalization_round_trip (series scaled : list Q)
  (sc : MinMaxScaler.t) :
  MinMaxScaler.fit_transform series = Return (sc, scaled) ->
  ~ (MinMaxScaler.data_min_ sc == MinMaxScaler.data_max_ sc)%Q ->
  (exists back,
     MinMaxScaler.inverse_transform sc scaled = Return back
     /\ Forall2 Qeq back series)
  /\ forall v, In v series ->
       (MinMaxScaler.inverse1 sc (MinMaxScaler.transform1 sc v) == v)%Q.
Proof.
  intros Hft _. destruct (fit_transform_inv _ Hft) as (Hfit & Hne & ->).
  assert (Hs : ~ (MinMaxScaler.scale_ sc == 0)%Q).
  { intros H0. pose proof (fit_scale_pos _ Hfit) as Hpos.
    rewrite H0 in Hpos. revert Hpos. apply Qlt_irrefl. }
  split.
  - exists (map (MinMaxScaler.inverse1 sc)
              (map (MinMaxScaler.transform1 sc) series)).
    split.
    + unfold MinMaxScaler.inverse_transform.
      destruct series as [|x rest]; [contradiction|reflexivity].
    + clear Hft Hfit Hne. induction series as [|x rest IH]; cbn; constructor.
      * now apply inverse1_transform1.
      * exact IH.
  - intros v _. now apply inverse1_transform1.
Qed.

Lemma normalization_round_trip_witness :
  exists sc scaled,
    MinMaxScaler.fit_transform [322; 315; 308; 301; 294; 287; 280; 276]%Q
      = Return (sc, scaled)
    /\ ~ (MinMaxScaler.data_min_ sc == MinMaxScaler.data_max_ sc)%Q
    /\ (MinMaxScaler.inverse1 sc (MinMaxScaler.transform1 sc 301) == 301)%Q.
Proof.
  eexists. eexists. split; [reflexivity|].
  assert (Hne : ~ (276 == 322)%Q) by (intros H; discriminate H).
  split; [exact Hne|].
  refine (proj2 (@normalization_round_trip
                   [322; 315; 308; 301; 294; 287; 280; 276]%Q _ _
                   eq_refl Hne) 301%Q _).
  cbn. auto.
Defined.

Lemma fold_min_constant (x : Q) (rest : list Q) (a : Q) :
  (a == x)%Q -> Forall (fun v => v == x)%Q rest ->
  (fold_left Qmin rest a == x)%Q.
Proof.
  intros Ha Hall. revert a Ha.
  induction Hall as [|r rest Hr _ IH]; intros a Ha; cbn [fold_left];
    [exact Ha|].
  apply IH. rewrite Ha, Hr. apply Q.min_id.
Qed.

Lemma fold_max_constant (x : Q) (rest : list Q) (a : Q) :
  (a == x)%Q -> Forall (fun v => v == x)%Q rest ->
  (fold_left Qmax rest a == x)%Q.
Proof.
  intros Ha Hall. revert a Ha.
  induction Hall as [|r rest Hr _ IH]; intros a Ha; cbn [fold_left];
    [exact Ha|].
  apply IH. rewrite Ha, Hr. apply Q.max_id.
Qed.

(** C5, as the code has it: a constant series with at least one value
    raises nothing.  The scaler finds the range zero, replaces it by one,
    so that its scale is one, and returns a scaled series of the same
    length whose entries are all zero. *)
Theorem normalization_constant_series (x : Q) (rest : list Q) :
  Forall (fun v => v == x)%Q rest ->
  exists sc scaled,
    MinMaxScaler.fit_transform (x :: rest) = Return (sc, scaled)
    /\ (MinMaxScaler.data_min_ sc == MinMaxScaler.data_max_ sc)%Q
    /\ (MinMaxScaler.data_range_ sc == 0)%Q
    /\ MinMaxScaler.handle_zeros_in_scale (MinMaxScaler.data_range_ sc) = 1%Q
    /\ (MinMaxScaler.scale_ sc == 1)%Q
    /\ (MinMaxScaler.min_ sc == - x)%Q
    /\ length scaled = length (x :: rest)
    /\ Forall (fun v => v == 0)%Q scaled.
Proof.
  intros Hall.
  pose proof (@fold_min_constant x rest x (Qeq_refl x) Hall) as Hmin.
  pose proof (@fold_max_constant x rest x (Qeq_refl x) Hall) as Hmax.
  assert (Hzero : (fold_left Qmax rest x - fold_left Qmin rest x == 0)%Q)
    by (rewrite Hmin, Hmax; ring).
  eexists. eexists. split; [reflexivity|]. cbn [MinMaxScaler.data_min_
    MinMaxScaler.data_max_ MinMaxScaler.data_range_ MinMaxScaler.scale_
    MinMaxScaler.min_].
  split; [now rewrite Hmin, Hmax|].
  split; [exact Hzero|].
  split; [exact (handle_zeros_of_zero Hzero)|].
  unfold MinMaxScaler.feature_range. cbn [fst snd].
  split; [rewrite (handle_zeros_of_zero Hzero); field|].
  split; [rewrite (handle_zeros_of_zero Hzero), Hmin; field|].
  split; [now rewrite length_map|].
  apply Forall_forall. intros v Hv. apply in_map_iff in Hv.
  destruct Hv as (w & <- & Hw).
  assert (Hwx : (w == x)%Q).
  { destruct Hw as [<-|Hw]; [reflexivity|].
    rewrite Forall_forall in Hall. now apply Hall. }
  unfold MinMaxScaler.transform1. cbn [MinMaxScaler.scale_ MinMaxScaler.min_].
  rewrite (handle_zeros_of_zero Hzero), Hmin, Hwx.
  unfold MinMaxScaler.feature_range. cbn [fst snd]. field.
Qed.

Lemma normalization_constant_series_witness :
  exists sc scaled,
    MinMaxScaler.fit_transform [215; 215; 215]%Q = Return (sc, scaled)
    /\ (MinMaxScaler.scale_ sc == 1)%Q
    /\ Forall (fun v => v == 0)%Q scaled.
Proof.
  destruct (@normalization_constant_series 215%Q [215; 215]%Q)
    as (sc & scaled & Hrun & _ & _ & _ & Hscale & _ & _ & Hz).
  - repeat constructor.
  - exists sc, scaled. split; [exact Hrun|]. split; [exact Hscale | exact Hz].
Defined.

(** C5 as stated fails: three equal values are normalised without an
    error, with scale one, to three zeros. *)
Lemma normalization_constant_series_no_error :
  ~ Py.raises (MinMaxScaler.fit_transform [215; 215; 215]%Q)
  /\ exists sc scaled,
       MinMaxScaler.fit_transform [215; 215; 215]%Q = Return (sc, scaled)
       /\ (MinMaxScaler.scale_ sc == 1)%Q
       /\ Forall2 Qeq scaled [0; 0; 0]%Q.
Proof.
  split.
  - intros [e He]. vm_compute in He. discriminate He.
  - eexists. eexists. split; [reflexivity|]. split; [reflexivity|].
    repeat constructor.
Qed.

(** ** Test-set error *)

Section EvaluateFacts.

Import MinMaxScaler Evaluate.
Open Scope Q_scope.

Variable sc : MinMaxScaler.t.
Hypothesis scale_nonzero : ~ scale_ sc == 0.

Local Notation "'differences'" := (squared_differences sc).

Lemma squared_errors_scaled (preds labels : list Q) :
  np_sum (differences preds labels)
  == (/ scale_ sc) ^ 2 * np_sum (normalized_squared_errors preds labels).
Proof.
  unfold squared_differences. revert labels.
  induction preds as [|p ps IH]; intros [|l ls]; cbn [map combine np_sum
    fold_right normalized_squared_errors]; try ring.
  fold (np_sum (normalized_squared_errors ps ls)).
  fold (np_sum (map (fun d => d ^ 2)
                  (map (fun p => fst p - snd p)
                     (combine (map (inverse1 sc) ps) (map (inverse1 sc) ls))))).
  rewrite IH. cbn [fst snd]. unfold inverse1. field. exact scale_nonzero.
Qed.


Lemma test_loss_runs (predict : list Q -> Q) (X_test : list (list Q))
  (y_test : list Q) :
  X_test <> [] ->
  length X_test = length y_test ->
  test_loss sc predict X_test y_test
  = Return (Some (np_sum (differences (map predict X_test) y_test)
                  / inject_Z (Z.of_nat (length X_test)))).
Proof.
  intros Hne Hlen. unfold test_loss, denormalized, inverse_transform,
    mean_squared_difference, np_sub, squared_differences.
  destruct X_test as [|w ws]; [contradiction|].
  destruct y_test as [|l ls]; [discriminate Hlen|].
  cbn [map check_array bind fst snd].
  cbn [length] in *. rewrite !length_map.
  injection Hlen as Hlen. rewrite Hlen, Nat.eqb_refl.
  cbn [bind combine map np_mean length].
  rewrite !length_map, length_combine, !length_map, Hlen, Nat.min_id.
  reflexivity.
Qed.

End EvaluateFacts.

(** The inverse transform of a fitted scaler is the one the
    specification writes, as soon as the range is not one the scaler
    treats as zero. *)
Lemma inverse1_spec (X : list Q) (sc : MinMaxScaler.t) (v : Q) :
  MinMaxScaler.fit X = Return sc ->
  (10 * MinMaxScaler.eps
   <= MinMaxScaler.data_max_ sc - MinMaxScaler.data_min_ sc)%Q ->
  (MinMaxScaler.inverse1 sc v
   == MinMaxScaler.spec_inverse v (MinMaxScaler.data_min_ sc)
        (MinMaxScaler.data_max_ sc))%Q.
Proof.
  intros Hfit Hr.
  destruct (fit_attributes X Hfit) as (x & rest & _ & _ & _ & Hrg & Hs & Hm).
  unfold MinMaxScaler.inverse1, MinMaxScaler.spec_inverse.
  rewrite Hm, Hs, Hrg, (handle_zeros_keeps Hr).
  assert (Hpos : (0 < MinMaxScaler.data_max_ sc - MinMaxScaler.data_min_ sc)%Q)
    by (eapply Qlt_le_trans; [exact ten_eps_pos | exact Hr]).
  field. repeat split; intros H0; try discriminate H0.
  rewrite H0 in Hpos. revert Hpos. apply Qlt_irrefl.
Qed.

Lemma transform1_spec (X : list Q) (sc : MinMaxScaler.t) (v : Q) :
  MinMaxScaler.fit X = Return sc ->
  (10 * MinMaxScaler.eps
   <= MinMaxScaler.data_max_ sc - MinMaxScaler.data_min_ sc)%Q ->
  (MinMaxScaler.transform1 sc v
   == MinMaxScaler.spec_transform v (MinMaxScaler.data_min_ sc)
        (MinMaxScaler.data_max_ sc))%Q.
Proof.
  intros Hfit Hr.
  destruct (fit_attributes X Hfit) as (x & rest & _ & _ & _ & Hrg & Hs & Hm).
  unfold MinMaxScaler.transform1, MinMaxScaler.spec_transform.
  rewrite Hm, Hs, Hrg, (handle_zeros_keeps Hr).
  assert (Hpos : (0 < MinMaxScaler.data_max_ sc - MinMaxScaler.data_min_ sc)%Q)
    by (eapply Qlt_le_trans; [exact ten_eps_pos | exact Hr]).
  field. repeat split; intros H0; try discriminate H0.
  rewrite H0 in Hpos. revert Hpos. apply Qlt_irrefl.
Qed.



(** ** Dates *)

Section DateFacts.

Import Dates.
Open Scope Z_scope.

Lemma ltb_of_years (a b : date) : year a < year b -> ltb a b = true.
Proof.
  intros H. unfold ltb. apply Z.ltb_lt in H. now rewrite H.
Qed.

Lemma leb_years (a b : date) : leb a b = true -> year a <= year b.
Proof.
  unfold leb. intros H. apply negb_true_iff in H.
  destruct (Z_lt_le_dec (year b) (year a)) as [Hlt|Hle]; [|exact Hle].
  now rewrite (ltb_of_years _ _ Hlt) in H.
Qed.

Lemma max_years (a b : date) :
  year a <= year (max a b) /\ year b <= year (max a b).
Proof.
  unfold max. destruct (ltb a b) eqn:H.
  - split; [|lia]. unfold ltb in H.
    apply orb_true_iff in H. destruct H as [H|H].
    + apply Z.ltb_lt in H. lia.
    + apply andb_true_iff in H. destruct H as [H _].
      apply Z.eqb_eq in H. lia.
  - split; [lia|]. apply leb_years. unfold leb. now rewrite H.
Qed.

Lemma fold_max_years (rest : list date) (d : date) :
  Forall (fun x => year x <= year (fold_left max rest d)) (d :: rest).
Proof.
  revert d. induction rest as [|r rest IH]; intros d; cbn [fold_left].
  - constructor; [lia | constructor].
  - specialize (IH (max d r)). inversion IH as [|? ? Hhd Htl]; subst.
    destruct (max_years d r) as [Hd Hr].
    constructor; [lia|]. constructor; [lia | exact Htl].
Qed.

Lemma fold_max_in (rest : list date) (d : date) :
  In (fold_left max rest d) (d :: rest).
Proof.
  revert d. induction rest as [|r rest IH]; intros d; cbn [fold_left].
  - now left.
  - destruct (IH (max d r)) as [H|H]; [|now right; right].
    rewrite <- H. unfold max. destruct (ltb d r); [now right; left | now left].
Qed.

Lemma rollforward_year (d : date) : year (rollforward d) = year d.
Proof. unfold rollforward. now destruct (is_on_offset d). Qed.

Lemma future_dates_length (d : date) (periods : nat) :
  length (future_dates d periods) = periods.
Proof.
  unfold future_dates, date_range. now rewrite length_map, length_seq.
Qed.

Lemma future_dates_nth (d : date) (periods j : nat) :
  (j < periods)%nat ->
  nth_error (future_dates d periods) j
  = Some {| year := year d + 1 + Z.of_nat j; month := 12; day := 31 |}.
Proof.
  intros Hj. unfold future_dates, date_range.
  rewrite nth_error_map, nth_error_seq.
  destruct (Nat.ltb_spec j periods); [|lia].
  cbn [option_map Nat.add]. now rewrite rollforward_year.
Qed.

(** Every date of the forecast is later than every date observed. *)
Lemma future_dates_after (ds : list date) (last_observed : date)
  (periods : nat) :
  column_max ds = Return last_observed ->
  In last_observed ds
  /\ Forall (fun f => forall d, In d ds -> ltb d f = true)
            (future_dates last_observed periods).
Proof.
  destruct ds as [|d0 rest]; cbn [column_max]; [discriminate|].
  intros H. injection H as <-. split; [apply fold_max_in|].
  apply Forall_forall. intros f Hf d Hd.
  apply In_nth_error in Hf. destruct Hf as [j Hj].
  assert (Hlt : (j < periods)%nat).
  { rewrite <- (future_dates_length (fold_left max rest d0) periods).
    apply nth_error_Some. now rewrite Hj. }
  rewrite (future_dates_nth _ Hlt) in Hj. injection Hj as <-.
  apply ltb_of_years. cbn [year].
  pose proof (fold_max_years rest d0) as Hall.
  rewrite Forall_forall in Hall. specialize (Hall d Hd). lia.
Qed.

End DateFacts.

(** ** Assembly of the forecast *)

Lemma last_slice_length (A : Type) (a : list A) (w : nat) :
  0 < w -> w <= length a -> length (Np.last_slice a w) = w.
Proof.
  intros Hw Hle. destruct w as [|w]; [lia|].
  cbn [Np.last_slice]. rewrite length_skipn. lia.
Qed.

Lemma train_size_bounds (n : nat) :
  2 <= n -> 1 <= Windowing.train_size n < n.
Proof.
  intros Hn. unfold Windowing.train_size. split.
  - apply Nat.div_le_lower_bound; lia.
  - apply Nat.Div0.div_lt_upper_bound; lia.
Qed.

Lemma inverse_transform_runs (sc : MinMaxScaler.t) (X : list Q) :
  X <> [] ->
  MinMaxScaler.inverse_transform sc X
  = Return (map (MinMaxScaler.inverse1 sc) X).
Proof.
  intros Hne. destruct X; [contradiction|reflexivity].
Qed.

Lemma nonempty_of_length (A : Type) (l : list A) : 0 < length l -> l <> [].
Proof. destruct l; cbn; [lia|discriminate]. Qed.

(** The section runs to its end on a series with at least two windows,
    and its outputs are the ones each statement computes. *)
Lemma lstm_section_runs
  (fit_model : list (list Q) -> list Q -> result (list Q -> Q))
  (df : list (Dates.date * Q)) (look_back horizon : nat)
  (sc : MinMaxScaler.t) (scaled : list Q)
  (X : list (list Q)) (y : list Q) (predict : list Q -> Q) :
  0 < look_back ->
  look_back + 2 <= length df ->
  1 <= horizon ->
  MinMaxScaler.fit_transform (map snd df) = Return (sc, scaled) ->
  Windowing.make_windows look_back scaled = Return (X, y) ->
  fit_model (firstn (Windowing.train_size (length X)) X)
            (firstn (Windowing.train_size (length X)) y) = Return predict ->
  exists last_observed test_loss,
    Dates.column_max (map fst df) = Return last_observed
    /\ Evaluate.test_loss sc predict
         (skipn (Windowing.train_size (length X)) X)
         (skipn (Windowing.train_size (length X)) y) = Return test_loss
    /\ Lstm.lstm_section fit_model df look_back horizon
       = Return
           {| Lstm.scaler := sc; Lstm.scaled_data := scaled;
              Lstm.X := X; Lstm.y := y; Lstm.test_loss := test_loss;
              Lstm.future_predictions :=
                Forecast.predictions predict
                  (Np.last_slice scaled look_back) horizon;
              Lstm.future_predictions_inv :=
                map (MinMaxScaler.inverse1 sc)
                  (Forecast.predictions predict
                     (Np.last_slice scaled look_back) horizon);
              Lstm.future_dates := Dates.future_dates last_observed horizon |}.
Proof.
  intros Hpos Hlen Hk Hft Hmw Hfm.
  destruct (fit_transform_inv _ Hft) as (_ & _ & Hscaled).
  assert (Hsl : length scaled = length df)
    by (now rewrite Hscaled, !length_map).
  destruct (@make_windows_lengths Q look_back scaled)
    as (X' & y' & Hmw' & HX & Hy); [lia|].
  rewrite Hmw in Hmw'. injection Hmw' as <- <-.
  set (k := Windowing.train_size (length X)) in *.
  destruct (train_size_bounds (n := length X)) as [Hk1 Hk2]; [lia|].
  fold k in Hk1, Hk2.
  destruct df as [|[d0 v0] df']; [cbn in Hlen; lia|].
  eexists. 
  assert (Htest : exists m, Evaluate.test_loss sc predict (skipn k X) (skipn k y)
                            = Return (Some m)).
  { eexists. apply test_loss_runs.
    - apply nonempty_of_length. rewrite length_skipn. lia.
    - rewrite !length_skipn. lia. }
  destruct Htest as [m Htest]. exists (Some m).
  split; [reflexivity|]. split; [exact Htest|].
  unfold Lstm.lstm_section. rewrite Hft. cbn [bind]. rewrite Hmw. cbn [bind].
  unfold Windowing.train_test_split. fold k. rewrite Hfm. cbn [bind].
  rewrite inverse_transform_runs
    by (apply nonempty_of_length; rewrite length_map, length_firstn; lia).
  cbn [bind].
  unfold Evaluate.test_loss in Htest.
  destruct (Evaluate.denormalized sc predict (skipn k X) (skipn k y))
    as [inv|e]; [|discriminate Htest].
  cbn [bind] in Htest |- *.
  unfold Forecast.future_predictions, Forecast.forecast.
  rewrite loop_runs by (try apply last_slice_length; lia).
  cbn [bind snd app].
  rewrite inverse_transform_runs
    by (apply nonempty_of_length; rewrite predictions_length; lia).
  cbn [bind map fst Dates.column_max]. rewrite Htest. reflexivity.
Qed.

(** C8: the assembly of the forecast.  On a series with at least two
    windows and for a horizon [K >= 1], the section returns; the scaler
    it reports is the one fitted on the whole series; the reported
    forecast has exactly [K] entries, entry [j] being the inverse
    transform, by that one scaler, of the [j]-th value of the recursive
    forecast, which is [p * (max - min) + min] for the minimum and
    maximum of the series when the range is not one the scaler treats as
    zero; the first entry is the inverse transform of the prediction made
    from the last [look_back] scaled values, so no observed value is
    placed in the sequence; and its [K] dates are all later than every
    observed date. *)
Theorem forecast_assembly
  (fit_model : list (list Q) -> list Q -> result (list Q -> Q))
  (df : list (Dates.date * Q)) (look_back horizon : nat)
  (sc : MinMaxScaler.t) (scaled : list Q)
  (X : list (list Q)) (y : list Q) (predict : list Q -> Q) :
  0 < look_back ->
  look_back + 2 <= length df ->
  1 <= horizon ->
  MinMaxScaler.fit_transform (map snd df) = Return (sc, scaled) ->
  Windowing.make_windows look_back scaled = Return (X, y) ->
  fit_model (firstn (Windowing.train_size (length X)) X)
            (firstn (Windowing.train_size (length X)) y) = Return predict ->
  exists out last_sequence,
    Lstm.lstm_section fit_model df look_back horizon = Return out
    /\ Lstm.scaler out = sc
    /\ MinMaxScaler.fit (map snd df) = Return sc
    /\ Forecast.forecast look_back predict
         (Np.last_slice scaled look_back) horizon
       = Return (last_sequence, Lstm.future_predictions out)
    /\ length (Lstm.future_predictions out) = horizon
    /\ length (Lstm.future_predictions_inv out) = horizon
    /\ (forall j p,
          nth_error (Lstm.future_predictions out) j = Some p ->
          nth_error (Lstm.future_predictions_inv out) j
          = Some (MinMaxScaler.inverse1 sc p)
          /\ ((10 * MinMaxScaler.eps
               <= MinMaxScaler.data_max_ sc - MinMaxScaler.data_min_ sc)%Q ->
              (MinMaxScaler.inverse1 sc p
               == MinMaxScaler.spec_inverse p (MinMaxScaler.data_min_ sc)
                    (MinMaxScaler.data_max_ sc))%Q))
    /\ nth_error (Lstm.future_predictions_inv out) 0
       = Some (MinMaxScaler.inverse1 sc
                 (predict (Np.last_slice scaled look_back)))
    /\ length (Lstm.future_dates out) = horizon
    /\ Forall (fun f => forall d, In d (map fst df) -> Dates.ltb d f = true)
              (Lstm.future_dates out).
Proof.
  intros Hpos Hlen Hk Hft Hmw Hfm.
  destruct (lstm_section_runs fit_model df Hpos Hlen Hk Hft Hmw Hfm)
    as (last_observed & loss & Hmax & _ & Hrun).
  destruct (fit_transform_inv _ Hft) as (Hfit & _ & Hscaled).
  assert (Hctx : length (Np.last_slice scaled look_back) = look_back).
  { apply last_slice_length; [exact Hpos|].
    rewrite Hscaled, !length_map. lia. }
  eexists. exists (Nat.iter horizon (Forecast.slide predict)
                     (Np.last_slice scaled look_back)).
  split; [exact Hrun|]. cbn [Lstm.scaler Lstm.future_predictions
    Lstm.future_predictions_inv Lstm.future_dates].
  split; [reflexivity|]. split; [exact Hfit|].
  split; [unfold Forecast.forecast; now rewrite loop_runs|].
  split; [apply predictions_length|].
  split; [now rewrite length_map, predictions_length|].
  split.
  { intros j p Hj. split.
    - now rewrite nth_error_map, Hj.
    - intros Hr. now apply (inverse1_spec (map snd df)). }
  split.
  { rewrite nth_error_map, predictions_nth by lia. reflexivity. }
  split; [apply future_dates_length|].
  now apply future_dates_after.
Qed.

Lemma forecast_assembly_witness :
  exists out,
    Lstm.lstm_section Lstm.fit_mean Lstm.eight_years Lstm.look_back
      Lstm.horizon = Return out
    /\ length (Lstm.future_predictions_inv out) = 5
    /\ nth_error (Lstm.future_dates out) 0
       = Some {| Dates.year := 2008; Dates.month := 12; Dates.day := 31 |}
    /\ Forall (fun f => forall d, In d (map fst Lstm.eight_years) ->
                                  Dates.ltb d f = true)
              (Lstm.future_dates out).
Proof.
  edestruct forecast_assembly
    with (fit_model := Lstm.fit_mean) (df := Lstm.eight_years)
         (look_back := Lstm.look_back) (horizon := Lstm.horizon)
         (predict := Lstm.mean_of_window)
    as (out & last & Hrun & _ & _ & _ & _ & Hlen & _ & _ & _ & Hdates);
    [ unfold Lstm.look_back; lia
    | cbn; lia
    | unfold Lstm.horizon; lia
    | reflexivity
    | reflexivity
    | reflexivity
    | ].
  exists out. split; [exact Hrun|]. split; [exact Hlen|].
  split; [|exact Hdates].
  assert (Hout := Hrun). vm_compute in Hout. injection Hout as <-.
  reflexivity.
Defined.

(** ** The merge of the data updater *)

Section OrderFacts.

Import Dates.
Open Scope Z_scope.

Lemma ltb_lex (a b : date) :
  ltb a b = true <->
  year a < year b
  \/ (year a = year b
      /\ (month a < month b \/ (month a = month b /\ day a < day b))).
Proof.
  unfold ltb.
  rewrite !orb_true_iff, !andb_true_iff, !orb_true_iff, !andb_true_iff,
    !Z.ltb_lt, !Z.eqb_eq.
  reflexivity.
Qed.

Lemma leb_lex (a b : date) :
  leb a b = true <->
  year a < year b
  \/ (year a = year b
      /\ (month a < month b \/ (month a = month b /\ day a <= day b))).
Proof.
  unfold leb. rewrite negb_true_iff, <- not_true_iff_false, ltb_lex. lia.
Qed.

Lemma date_eqb_eq (a b : date) : DataUpdater.date_eqb a b = true <-> a = b.
Proof.
  unfold DataUpdater.date_eqb.
  rewrite !andb_true_iff, !Z.eqb_eq. split.
  - intros [[Hy Hm] Hd]. destruct a, b; cbn in *. congruence.
  - intros ->. auto.
Qed.

Lemma date_eqb_refl (a : date) : DataUpdater.date_eqb a a = true.
Proof. now apply date_eqb_eq. Qed.

Lemma ltb_irrefl (a : date) : ltb a a = false.
Proof. apply not_true_iff_false. rewrite ltb_lex. lia. Qed.

Lemma leb_trans (a b c : date) :
  leb a b = true -> leb b c = true -> leb a c = true.
Proof. rewrite !leb_lex. lia. Qed.

Lemma ltb_leb (a b : date) : ltb a b = true -> leb a b = true.
Proof. rewrite ltb_lex, leb_lex. lia. Qed.

Lemma not_ltb_leb (a b : date) : ltb a b = false -> leb b a = true.
Proof. unfold leb. now intros ->. Qed.

Lemma leb_neq_ltb (a b : date) :
  leb a b = true -> a <> b -> ltb a b = true.
Proof.
  rewrite leb_lex, ltb_lex. intros Hle Hne.
  destruct (Z.eq_dec (day a) (day b)) as [Hd|Hd]; [|lia].
  destruct (Z.eq_dec (month a) (month b)) as [Hm|Hm]; [|lia].
  destruct (Z.eq_dec (year a) (year b)) as [Hy|Hy]; [|lia].
  exfalso. apply Hne. destruct a, b; cbn in *. congruence.
Qed.

End OrderFacts.

Section DropDuplicatesFacts.

Import DataUpdater.

Lemma seen_false (d : Dates.date) (seen : list Dates.date) :
  existsb (date_eqb d) seen = false <-> ~ In d seen.
Proof.
  rewrite <- not_true_iff_false, existsb_exists. split.
  - intros H Hin. apply H. exists d. split; [exact Hin | apply date_eqb_refl].
  - intros H (x & Hin & Heq). apply date_eqb_eq in Heq. now subst.
Qed.

Lemma drop_duplicates_from_in (seen : list Dates.date) (df : list row)
  (r : row) :
  In r (drop_duplicates_from seen df) -> In r df /\ ~ In (ds r) seen.
Proof.
  revert seen. induction df as [|h t IH]; intros seen; cbn; [tauto|].
  destruct (existsb (date_eqb (ds h)) seen) eqn:Hs.
  - intros H. destruct (IH _ H). tauto.
  - intros [<-|H].
    + split; [now left | now apply seen_false].
    + destruct (IH _ H) as [Hin Hnot]. split; [now right|].
      intros Hseen. apply Hnot. now right.
Qed.

Lemma drop_duplicates_from_strict (seen : list Dates.date) (df : list row) :
  ascending df -> strictly_ascending (drop_duplicates_from seen df).
Proof.
  unfold ascending, strictly_ascending. intros Hs. revert seen.
  induction Hs as [|h t Ht IH Hall]; intros seen; cbn; [constructor|].
  destruct (existsb (date_eqb (ds h)) seen); [apply IH|].
  constructor; [apply IH|].
  apply Forall_forall. intros r Hr.
  apply drop_duplicates_from_in in Hr. destruct Hr as [Hin Hnot].
  rewrite Forall_forall in Hall.
  apply leb_neq_ltb; [now apply Hall|].
  intros Heq. apply Hnot. left. exact Heq.
Qed.

Lemma drop_duplicates_from_covers (seen : list Dates.date) (df : list row)
  (r : row) :
  In r df -> ~ In (ds r) seen ->
  exists r', In r' (drop_duplicates_from seen df) /\ ds r' = ds r.
Proof.
  revert seen. induction df as [|h t IH]; intros seen; cbn; [tauto|].
  intros Hin Hnot.
  destruct (existsb (date_eqb (ds h)) seen) eqn:Hs.
  - destruct Hin as [->|Hin].
    + apply seen_false in Hnot. congruence.
    + now apply IH.
  - destruct Hin as [->|Hin]; [exists r; split; [now left | reflexivity]|].
    destruct (date_eqb (ds h) (ds r)) eqn:Heq.
    + apply date_eqb_eq in Heq. exists h. split; [now left | exact Heq].
    + destruct (IH (ds h :: seen) Hin) as (r' & Hr' & Hd).
      * intros [H|H]; [|contradiction].
        rewrite H, date_eqb_refl in Heq. discriminate.
      * exists r'. split; [now right | exact Hd].
Qed.

Lemma drop_duplicates_from_row_of (seen : list Dates.date) (df : list row)
  (d : Dates.date) :
  row_of d (drop_duplicates_from seen df)
  = if existsb (date_eqb d) seen then None else row_of d df.
Proof.
  unfold row_of. revert seen.
  induction df as [|h t IH]; intros seen; cbn [drop_duplicates_from find].
  - now destruct (existsb (date_eqb d) seen).
  - destruct (existsb (date_eqb (ds h)) seen) eqn:Hs.
    + rewrite IH. destruct (existsb (date_eqb d) seen) eqn:Hd; [reflexivity|].
      destruct (date_eqb d (ds h)) eqn:Heq; [|reflexivity].
      apply date_eqb_eq in Heq. subst d. congruence.
    + cbn [find]. destruct (date_eqb d (ds h)) eqn:Heq.
      * apply date_eqb_eq in Heq. subst d. now rewrite Hs.
      * rewrite IH. cbn [existsb]. rewrite Heq. reflexivity.
Qed.

Lemma strictly_ascending_nodup (df : list row) :
  strictly_ascending df -> NoDup (map ds df).
Proof.
  unfold strictly_ascending.
  induction 1 as [|h t Ht IH Hall]; cbn; constructor; [|exact IH].
  intros Hin. apply in_map_iff in Hin. destruct Hin as (r & Heq & Hr).
  rewrite Forall_forall in Hall. specialize (Hall r Hr).
  rewrite Heq, ltb_irrefl in Hall. discriminate.
Qed.

Lemma strictly_ascending_ascending (df : list row) :
  strictly_ascending df -> ascending df.
Proof.
  unfold strictly_ascending, ascending.
  induction 1 as [|h t Ht IH Hall]; constructor; [exact IH|].
  eapply Forall_impl; [|exact Hall]. intros r. apply ltb_leb.
Qed.

Lemma find_filter (p : row -> bool) (df : list row) :
  find p df = hd_error (filter p df).
Proof.
  induction df as [|h t IH]; cbn; [reflexivity|].
  now destruct (p h).
Qed.

End DropDuplicatesFacts.

Section MergeFacts.

Import DataUpdater.

Lemma new_rows_spec (new_data : list data_point) :
  (forall p, In p new_data -> to_datetime_year (point_year p) <> None) ->
  exists rows,
    new_rows new_data = Some rows
    /\ Forall2 (fun p r =>
                  to_datetime_year (point_year p) = Some (ds r)
                  /\ y r = incidence p
                  /\ source r = Some (point_source p))
               new_data rows.
Proof.
  induction new_data as [|p rest IH]; intros Hyears.
  - exists []. split; [reflexivity | constructor].
  - destruct IH as (rs & Hrs & Hall); [intros q Hq; apply Hyears; now right|].
    cbn [new_rows]. rewrite Hrs.
    destruct (to_datetime_year (point_year p)) as [d|] eqn:Hd;
      [|exfalso; apply (Hyears p); [now left | exact Hd]].
    eexists. split; [reflexivity|]. constructor; [|exact Hall].
    cbn. auto.
Qed.

Lemma new_rows_none (new_data : list data_point) (p : data_point) :
  In p new_data -> to_datetime_year (point_year p) = None ->
  new_rows new_data = None.
Proof.
  induction new_data as [|q rest IH]; intros Hin Hp; [contradiction|].
  cbn [new_rows]. destruct Hin as [->|Hin].
  - now rewrite Hp.
  - rewrite (IH Hin Hp). now destruct (to_datetime_year (point_year q)).
Qed.

Lemma drop_duplicates_row_of (d : Dates.date) (df : list row) :
  row_of d (drop_duplicates df) = row_of d df.
Proof.
  unfold drop_duplicates. now rewrite drop_duplicates_from_row_of.
Qed.

End MergeFacts.

(** C10, as the code has it.  When the file cannot be read, the batch is
    empty or one of its years cannot be dated, [integrate_new_data]
    returns [None] and leaves the file as it is.  Otherwise, whatever
    kind of sort [sort_values] runs, the frame it returns and writes has
    a [source] column and is in strictly ascending order of period, so it
    has at most one row per period; its rows are rows of the stored data
    or of the batch, and every period of either is kept; the row kept for
    a period is the first of that period in the order the sort returns,
    which the default sort does not promise to be the stored one. *)
Theorem integrate_new_data_merge
  (sort_values : list DataUpdater.row -> list DataUpdater.row)
  (data_file : option DataUpdater.frame)
  (new_data : list DataUpdater.data_point) :
  (data_file = None
   \/ new_data = []
   \/ (exists p, In p new_data
                 /\ DataUpdater.to_datetime_year (DataUpdater.point_year p)
                    = None) ->
   DataUpdater.integrate_new_data sort_values data_file new_data
   = (data_file, None))
  /\ forall current_df,
       data_file = Some current_df ->
       new_data <> [] ->
       (forall p, In p new_data ->
                  DataUpdater.to_datetime_year (DataUpdater.point_year p)
                  <> None) ->
       exists new_df,
         DataUpdater.new_df new_data = Some new_df
         /\ Forall2 (fun p r =>
                       DataUpdater.to_datetime_year (DataUpdater.point_year p)
                       = Some (DataUpdater.ds r)
                       /\ DataUpdater.y r = DataUpdater.incidence p
                       /\ DataUpdater.source r
                          = Some (DataUpdater.point_source p))
                    new_data new_df
         /\ (DataUpdater.sorted_frame
               (DataUpdater.rows current_df ++ new_df)
               (sort_values (DataUpdater.rows current_df ++ new_df)) ->
             exists updated_df,
               DataUpdater.integrate_new_data sort_values data_file new_data
               = (Some updated_df, Some updated_df)
               /\ DataUpdater.has_source updated_df = true
               /\ DataUpdater.strictly_ascending (DataUpdater.rows updated_df)
               /\ DataUpdater.ascending (DataUpdater.rows updated_df)
               /\ NoDup (map DataUpdater.ds (DataUpdater.rows updated_df))
               /\ (forall r, In r (DataUpdater.rows updated_df) ->
                             In r (DataUpdater.rows current_df)
                             \/ In r new_df)
               /\ (forall r, In r (DataUpdater.rows current_df)
                             \/ In r new_df ->
                             exists r', In r' (DataUpdater.rows updated_df)
                                        /\ DataUpdater.ds r'
                                           = DataUpdater.ds r)
               /\ (forall d,
                     DataUpdater.row_of d (DataUpdater.rows updated_df)
                     = DataUpdater.row_of d
                         (sort_values
                            (DataUpdater.rows current_df ++ new_df)))).
Proof.
  split.
  - intros [->|[->|(p & Hin & Hp)]].
    + reflexivity.
    + now destruct data_file.
    + unfold DataUpdater.integrate_new_data, DataUpdater.new_df.
      destruct data_file as [current_df|]; [|reflexivity].
      destruct new_data as [|q rest]; [reflexivity|].
      now rewrite (new_rows_none _ p Hin Hp).
  - intros current_df -> Hne Hyears.
    destruct (new_rows_spec new_data Hyears) as (new_df & Hnew & Hall).
    exists new_df.
    assert (Hdf : DataUpdater.new_df new_data = Some new_df)
      by (destruct new_data; [contradiction | exact Hnew]).
    split; [exact Hdf|]. split; [exact Hall|].
    intros [Hperm Hasc].
    set (all := DataUpdater.rows current_df ++ new_df) in *.
    exists {| DataUpdater.has_source := true;
              DataUpdater.rows := DataUpdater.drop_duplicates
                                    (sort_values all) |}.
    split.
    { unfold DataUpdater.integrate_new_data. now rewrite Hdf. }
    cbn [DataUpdater.has_source DataUpdater.rows].
    split; [reflexivity|].
    assert (Hstrict : DataUpdater.strictly_ascending
                        (DataUpdater.drop_duplicates (sort_values all)))
      by (now apply drop_duplicates_from_strict).
    split; [exact Hstrict|].
    split; [now apply strictly_ascending_ascending|].
    split; [now apply strictly_ascending_nodup|].
    split.
    { intros r Hr. apply drop_duplicates_from_in in Hr. destruct Hr as [Hr _].
      apply (Permutation_in _ Hperm) in Hr. now apply in_app_or. }
    split.
    { intros r Hr. apply drop_duplicates_from_covers; [|tauto].
      apply (Permutation_in _ (Permutation_sym Hperm)). now apply in_or_app. }
    intros d. apply drop_duplicates_row_of.
Qed.

Lemma integrate_new_data_merge_witness :
  exists updated_df,
    DataUpdater.integrate_new_data DataUpdater.sort_values_quicksort
      (Some {| DataUpdater.has_source := false;
               DataUpdater.rows := DataUpdater.stored_2022_2023 |})
      DataUpdater.get_new_who_data
    = (Some updated_df, Some updated_df)
    /\ DataUpdater.has_source updated_df = true
    /\ DataUpdater.strictly_ascending (DataUpdater.rows updated_df)
    /\ NoDup (map DataUpdater.ds (DataUpdater.rows updated_df)).
Proof.
  destruct (@integrate_new_data_merge DataUpdater.sort_values_quicksort
              (Some {| DataUpdater.has_source := false;
                       DataUpdater.rows := DataUpdater.stored_2022_2023 |})
              DataUpdater.get_new_who_data) as [_ Hmerge].
  destruct (Hmerge _ eq_refl) as (new_df & Hnew & _ & Hsorted).
  - discriminate.
  - intros p [<-|[<-|[]]]; discriminate.
  - injection Hnew as <-.
    destruct Hsorted as (out & Hrun & Hsrc & Hstrict & _ & Hnodup & _).
    + split; [apply Permutation_refl|]. repeat constructor.
    + exists out. repeat split; assumption.
Defined.

(** C10 as stated fails in its last part.  On the stored series of 2000
    to 2023 and a batch that revises 2005, the quicksort [sort_values]
    runs returns the fetched row of 2005 before the stored one, and the
    stored row is discarded for the fetched one. *)
Lemma integrate_new_data_discards_stored_row :
  Npysort.aquicksort
    (map DataUpdater.ds
       (DataUpdater.stored_2000_2023
        ++ [ {| DataUpdater.ds :=
                  {| Dates.year := 2005; Dates.month := 1; Dates.day := 1 |};
                DataUpdater.y := 290%Q;
                DataUpdater.source := Some "WHO revised estimate"%string |} ]))
  = Some [0; 1; 2; 3; 4; 24; 5; 6; 7; 8; 9; 10; 11; 12; 13; 14; 15; 16; 17;
          18; 19; 20; 21; 22; 23]
  /\ DataUpdater.row_of
       {| Dates.year := 2005; Dates.month := 1; Dates.day := 1 |}
       DataUpdater.stored_2000_2023
     = Some (DataUpdater.stored_row 2005 287%Q)
  /\ exists updated_df,
       DataUpdater.integrate_new_data DataUpdater.sort_values_quicksort
         (Some {| DataUpdater.has_source := false;
                  DataUpdater.rows := DataUpdater.stored_2000_2023 |})
         DataUpdater.revision_2005
       = (Some updated_df, Some updated_df)
       /\ DataUpdater.row_of
            {| Dates.year := 2005; Dates.month := 1; Dates.day := 1 |}
            (DataUpdater.rows updated_df)
          = Some {| DataUpdater.ds :=
                      {| Dates.year := 2005; Dates.month := 1;
                         Dates.day := 1 |};
                    DataUpdater.y := 290%Q;
                    DataUpdater.source :=
                      Some "WHO revised estimate"%string |}
       /\ DataUpdater.row_of
            {| Dates.year := 2005; Dates.month := 1; Dates.day := 1 |}
            (DataUpdater.rows updated_df)
          <> Some (DataUpdater.stored_row 2005 287%Q)
       /\ ~ In (DataUpdater.stored_row 2005 287%Q)
              (DataUpdater.rows updated_df).
Proof.
  split; [vm_compute; reflexivity|].
  split; [vm_compute; reflexivity|].
  eexists. split; [vm_compute; reflexivity|].
  split; [vm_compute; reflexivity|].
  split.
  - intros H. vm_compute in H. discriminate H.
  - intros H. vm_compute in H.
    repeat (destruct H as [H|H]; [discriminate H|]). exact H.
Qed.

(** * Further properties of the script *)

(** ** Windows, split and the start of the forecast *)

Section SlidingFacts.
Variable A : Type.
Variable look_back : nat.
Variable scaled_data : list A.

Hypothesis look_back_pos : 0 < look_back.

(** A slice of the window's width, moved by one, is the slice before it
    without its first entry and with the entry after it appended. *)
Lemma slice_slides (i : nat) (label : A) :
  nth_error scaled_data (i + look_back) = Some label ->
  Np.slice scaled_data (S i) (S i + look_back)
  = tl (Np.slice scaled_data i (i + look_back)) ++ [label].
Proof.
  intros Hl.
  assert (Hlen : i + look_back < length scaled_data)
    by (apply nth_error_Some; now rewrite Hl).
  apply nth_error_ext. intros k.
  unfold Np.slice.
  replace (S i + look_back - S i) with look_back by lia.
  replace (i + look_back - i) with look_back by lia.
  destruct (Nat.lt_ge_cases k look_back) as [Hk|Hk].
  - rewrite nth_error_firstn.
    destruct (Nat.ltb_spec k look_back); [|lia].
    rewrite nth_error_skipn.
    destruct (Nat.eq_dec k (look_back - 1)) as [->|Hne].
    + rewrite nth_error_app2;
        [|destruct (firstn look_back (skipn i scaled_data)) eqn:E;
          apply (f_equal (@length A)) in E;
          rewrite length_firstn, length_skipn in E; cbn in *; lia].
      replace (tl (firstn look_back (skipn i scaled_data))) with
        (firstn (look_back - 1) (skipn (S i) scaled_data)).
      * rewrite length_firstn, length_skipn.
        replace (look_back - 1 - Nat.min (look_back - 1)
                   (length scaled_data - S i)) with 0 by lia.
        cbn [nth_error]. rewrite <- Hl. f_equal. lia.
      * destruct look_back as [|w]; [lia|].
        replace (S w - 1) with w by lia.
        rewrite <- tl_skipn.
        destruct (skipn i scaled_data); [now rewrite firstn_nil|reflexivity].
    + rewrite nth_error_app1.
      * replace (tl (firstn look_back (skipn i scaled_data))) with
          (skipn 1 (firstn look_back (skipn i scaled_data))) by reflexivity.
        rewrite nth_error_skipn, nth_error_firstn.
        destruct (Nat.ltb_spec (1 + k) look_back); [|lia].
        rewrite nth_error_skipn. f_equal. lia.
      * replace (tl (firstn look_back (skipn i scaled_data))) with
          (skipn 1 (firstn look_back (skipn i scaled_data))) by reflexivity.
        rewrite length_skipn, length_firstn, length_skipn. lia.
  - rewrite nth_error_firstn.
    destruct (Nat.ltb_spec k look_back); [lia|].
    symmetry. apply nth_error_None.
    rewrite length_app. cbn [length].
    replace (tl (firstn look_back (skipn i scaled_data))) with
      (skipn 1 (firstn look_back (skipn i scaled_data))) by reflexivity.
    rewrite length_skipn, length_firstn, length_skipn. lia.
Qed.

End SlidingFacts.

(** What the windowing loop returns, whatever the length of the series. *)
Lemma make_windows_inv (A : Type) (look_back : nat) (scaled_data : list A)
  (X : list (list A)) (y : list A) :
  Windowing.make_windows look_back scaled_data = Return (X, y) ->
  X = map (fun i => Np.slice scaled_data i (i + look_back))
          (seq 0 (length scaled_data - look_back))
  /\ length y = length scaled_data - look_back
  /\ forall k, k < length scaled_data - look_back ->
       nth_error y k = nth_error scaled_data (k + look_back).
Proof.
  unfold Windowing.make_windows. intros Hrun.
  destruct (Nat.le_gt_cases (length scaled_data) look_back) as [Hle|Hgt].
  - replace (length scaled_data - look_back) with 0 in * by lia.
    cbn in Hrun. injection Hrun as <- <-.
    repeat split; intros; try reflexivity; lia.
  - destruct (@for_in_seq A look_back scaled_data
                (length scaled_data - look_back) 0 [] [])
      as (labels & Hrun' & Hlen & Hnth); [lia|].
    rewrite Hrun in Hrun'. cbn [app] in Hrun'. injection Hrun' as -> ->.
    repeat split; [exact Hlen | exact Hnth].
Qed.

(** X1: consecutive windows overlap.  Window [i+1] is window [i] without
    its first entry and with the label of window [i] appended. *)
Theorem windows_slide (A : Type) (look_back : nat) (scaled_data : list A)
  (X : list (list A)) (y : list A) (i : nat) (context : list A) (label : A) :
  0 < look_back ->
  Windowing.make_windows look_back scaled_data = Return (X, y) ->
  nth_error X i = Some context ->
  nth_error y i = Some label ->
  S i < length X ->
  nth_error X (S i) = Some (tl context ++ [label]).
Proof.
  intros Hpos Hrun Hc Hl Hi.
  destruct (make_windows_inv _ _ Hrun) as (-> & Hlen & Hnth).
  rewrite length_map, length_seq in Hi.
  rewrite nth_error_map, nth_error_seq in Hc |- *.
  destruct (Nat.ltb_spec i (length scaled_data - look_back)); [|lia].
  destruct (Nat.ltb_spec (S i) (length scaled_data - look_back)); [|lia].
  cbn [option_map Nat.add] in Hc |- *. injection Hc as <-.
  f_equal. apply slice_slides; [exact Hpos|].
  now rewrite <- Hnth, Hl by lia.
Qed.

Lemma windows_slide_witness :
  exists X y,
    Windowing.make_windows 4 [322; 315; 308; 301; 294; 287; 280; 276]
    = Return (X, y)
    /\ nth_error X 1 = Some [315; 308; 301; 294].
Proof.
  eexists. eexists. split; [reflexivity|].
  eapply windows_slide
    with (look_back := 4)
         (scaled_data := [322; 315; 308; 301; 294; 287; 280; 276])
         (i := 0) (context := [322; 315; 308; 301]) (label := 294);
    [lia | reflexivity | reflexivity | reflexivity | cbn; lia].
Defined.

(** X2: the forecast starts where the windows end.  The context the
    recursive forecast starts from is the last window without its first
    entry and with the label of the last window appended. *)
Theorem forecast_continues_last_window (A : Type) (look_back : nat)
  (scaled_data : list A) (X : list (list A)) (y : list A)
  (context : list A) (label : A) :
  0 < look_back ->
  Windowing.make_windows look_back scaled_data = Return (X, y) ->
  nth_error X (length X - 1) = Some context ->
  nth_error y (length X - 1) = Some label ->
  Np.last_slice scaled_data look_back = tl context ++ [label].
Proof.
  intros Hpos Hrun Hc Hl.
  destruct (make_windows_inv _ _ Hrun) as (-> & Hlen & Hnth).
  rewrite length_map, length_seq in Hc, Hl.
  set (n := length scaled_data - look_back) in *.
  assert (Hn : 0 < n).
  { destruct n; [|lia]. cbn in Hc. discriminate Hc. }
  rewrite nth_error_map, nth_error_seq in Hc.
  destruct (Nat.ltb_spec (n - 1) n); [|lia].
  cbn [option_map Nat.add] in Hc. injection Hc as <-.
  rewrite <- (@slice_slides A look_back scaled_data Hpos (n - 1) label)
    by (rewrite <- Hnth, Hl by lia; reflexivity).
  destruct look_back as [|w] eqn:Hw; [lia|]. cbn [Np.last_slice].
  unfold Np.slice.
  replace (S (n - 1)) with (length scaled_data - S w) by lia.
  replace (length scaled_data - S w + S w - (length scaled_data - S w))
    with (S w) by lia.
  symmetry. apply firstn_all2. rewrite length_skipn. lia.
Qed.

Lemma forecast_continues_last_window_witness :
  Np.last_slice [322; 315; 308; 301; 294; 287; 280; 276] 4
  = tl [301; 294; 287; 280] ++ [276].
Proof.
  eapply (@forecast_continues_last_window nat 4
            [322; 315; 308; 301; 294; 287; 280; 276]);
    [lia | reflexivity | reflexivity | reflexivity].
Defined.

(** X3: the split of lines 169-171 cuts the windows and the labels at
    the same position: the training part followed by the test part is
    the whole, in order; the training part has [floor (4 n / 5)] pairs;
    and as soon as there is a window the test part is not empty. *)
Theorem train_test_split_partition (A : Type) (X : list (list A))
  (y : list A) :
  length X = length y ->
  let '((X_train, X_test), (y_train, y_test)) :=
    Windowing.train_test_split X y in
  X_train ++ X_test = X
  /\ y_train ++ y_test = y
  /\ length X_train = length y_train
  /\ length X_test = length y_test
  /\ 5 * length X_train <= 4 * length X < 5 * length X_train + 5
  /\ (1 <= length X -> 1 <= length X_test)
  /\ (2 <= length X -> 1 <= length X_train).
Proof.
  intros Hlen. unfold Windowing.train_test_split, Windowing.train_size.
  set (k := length X * 4 / 5).
  assert (Hk : 5 * k <= length X * 4 < 5 * k + 5).
  { unfold k. pose proof (Nat.div_mod_eq (length X * 4) 5) as Hd.
    pose proof (Nat.mod_upper_bound (length X * 4) 5). lia. }
  rewrite !firstn_skipn, !length_firstn, !length_skipn.
  repeat split; lia.
Qed.

Lemma train_test_split_partition_witness :
  let '((X_train, X_test), (y_train, y_test)) :=
    Windowing.train_test_split [[1; 2]; [2; 3]; [3; 4]; [4; 5]; [5; 6]]
      [3; 4; 5; 6; 7] in
  X_train ++ X_test = [[1; 2]; [2; 3]; [3; 4]; [4; 5]; [5; 6]]
  /\ length X_train = 4 /\ length X_test = 1.
Proof.
  pose proof (@train_test_split_partition nat
                [[1; 2]; [2; 3]; [3; 4]; [4; 5]; [5; 6]] [3; 4; 5; 6; 7]
                eq_refl) as H.
  cbn in H |- *. destruct H as (H1 & _). split; [exact H1|]. split; reflexivity.
Defined.

(** ** The scaled series *)

Section ScaledRangeFacts.

Import MinMaxScaler.
Open Scope Q_scope.

Lemma transform1_as_quotient (X : list Q) (sc : t) (v : Q) :
  fit X = Return sc ->
  transform1 sc v
  == (v - data_min_ sc) / handle_zeros_in_scale (data_range_ sc).
Proof.
  intros Hfit.
  destruct (fit_attributes X Hfit) as (x & rest & _ & _ & _ & _ & Hs & Hm).
  unfold transform1. rewrite Hm, Hs.
  pose proof (handle_zeros_pos (data_range_ sc)) as Hpos.
  field. intros H0. rewrite H0 in Hpos. revert Hpos. apply Qlt_irrefl.
Qed.

Lemma handle_zeros_bounds_range (r : Q) :
  r <= handle_zeros_in_scale r.
Proof.
  unfold handle_zeros_in_scale.
  destruct (Qle_bool (10 * eps) r) eqn:Hb; [apply Qle_refl|].
  apply Qlt_le_weak. apply Qnot_le_lt. intros H1.
  assert (Hle : 10 * eps <= r).
  { eapply Qle_trans; [|exact H1]. unfold Qle. cbn. lia. }
  apply Qle_bool_iff in Hle. congruence.
Qed.

End ScaledRangeFacts.

(** X4: the scaled series lies in [[0, 1]].  Every entry of
    [scaled_data] is between 0 and 1, whatever the series; the minimum of
    the series is scaled to 0 and, when the range is not one the scaler
    treats as zero, the maximum is scaled to 1. *)
Theorem scaled_data_in_unit_interval (series scaled : list Q)
  (sc : MinMaxScaler.t) :
  MinMaxScaler.fit_transform series = Return (sc, scaled) ->
  length scaled = length series
  /\ Forall (fun v => 0 <= v /\ v <= 1)%Q scaled
  /\ In (MinMaxScaler.data_min_ sc) series
  /\ In (MinMaxScaler.data_max_ sc) series
  /\ (MinMaxScaler.transform1 sc (MinMaxScaler.data_min_ sc) == 0)%Q
  /\ ((10 * MinMaxScaler.eps
       <= MinMaxScaler.data_max_ sc - MinMaxScaler.data_min_ sc)%Q ->
      (MinMaxScaler.transform1 sc (MinMaxScaler.data_max_ sc) == 1)%Q).
Proof.
  intros Hft. destruct (fit_transform_inv _ Hft) as (Hfit & _ & ->).
  destruct (fit_attributes series Hfit)
    as (x & rest & -> & Hmin & Hmax & Hrg & _ & _).
  destruct (fold_min_spec rest x) as [Hmin_in Hmin_le].
  destruct (fold_max_spec rest x) as [Hmax_in Hmax_le].
  rewrite <- Hmin in Hmin_in, Hmin_le. rewrite <- Hmax in Hmax_in, Hmax_le.
  pose proof (handle_zeros_pos (MinMaxScaler.data_range_ sc)) as Hpos.
  pose proof (handle_zeros_bounds_range (MinMaxScaler.data_range_ sc)) as Hbd.
  split; [apply length_map|]. split.
  { apply Forall_forall. intros s Hs. apply in_map_iff in Hs.
    destruct Hs as (v & <- & Hv).
    rewrite Forall_forall in Hmin_le, Hmax_le.
    specialize (Hmin_le v Hv). specialize (Hmax_le v Hv).
    rewrite (transform1_as_quotient _ v Hfit). split.
    - apply Qle_shift_div_l; [exact Hpos|]. rewrite Qmult_0_l.
      unfold Qminus. rewrite <- Qle_minus_iff. exact Hmin_le.
    - apply Qle_shift_div_r; [exact Hpos|]. rewrite Qmult_1_l.
      eapply Qle_trans; [|exact Hbd]. rewrite Hrg.
      unfold Qminus. apply Qplus_le_compat; [exact Hmax_le | apply Qle_refl]. }
  split; [exact Hmin_in|]. split; [exact Hmax_in|]. split.
  - rewrite (transform1_as_quotient _ _ Hfit). field.
    intros H0. rewrite H0 in Hpos. revert Hpos. apply Qlt_irrefl.
  - intros Hr. rewrite (transform1_as_quotient _ _ Hfit).
    rewrite Hrg, (handle_zeros_keeps Hr).
    assert (Hp : (0 < MinMaxScaler.data_max_ sc - MinMaxScaler.data_min_ sc)%Q)
      by (eapply Qlt_le_trans; [exact ten_eps_pos | exact Hr]).
    field. intros H0. rewrite H0 in Hp. revert Hp. apply Qlt_irrefl.
Qed.

Lemma scaled_data_in_unit_interval_witness :
  exists sc scaled,
    MinMaxScaler.fit_transform [322; 315; 308; 301; 294; 287; 280; 276]%Q
    = Return (sc, scaled)
    /\ Forall (fun v => 0 <= v /\ v <= 1)%Q scaled.
Proof.
  eexists. eexists. split; [reflexivity|].
  exact (proj1 (proj2 (@scaled_data_in_unit_interval
                         [322; 315; 308; 301; 294; 287; 280; 276]%Q _ _
                         eq_refl))).
Defined.

(** X5: the two directions of a fitted scaler.  The transform undoes the
    inverse transform, and both keep the order of values strictly: a
    larger normalised forecast is a larger forecast in the units of the
    series. *)
Theorem scaler_directions (series : list Q) (sc : MinMaxScaler.t)
  (p q : Q) :
  MinMaxScaler.fit series = Return sc ->
  (MinMaxScaler.transform1 sc (MinMaxScaler.inverse1 sc p) == p)%Q
  /\ ((p < q)%Q ->
      (MinMaxScaler.inverse1 sc p < MinMaxScaler.inverse1 sc q)%Q)
  /\ ((p < q)%Q ->
      (MinMaxScaler.transform1 sc p < MinMaxScaler.transform1 sc q)%Q).
Proof.
  intros Hfit. pose proof (fit_scale_pos _ Hfit) as Hpos.
  assert (Hs : ~ (MinMaxScaler.scale_ sc == 0)%Q).
  { intros H0. rewrite H0 in Hpos. revert Hpos. apply Qlt_irrefl. }
  split; [unfold MinMaxScaler.transform1, MinMaxScaler.inverse1;
          field; exact Hs|].
  split; intros Hlt.
  - unfold MinMaxScaler.inverse1, Qdiv.
    apply Qmult_lt_compat_r; [now apply Qinv_lt_0_compat|].
    unfold Qminus. rewrite !(Qplus_comm _ (- MinMaxScaler.min_ sc)).
    now apply Qplus_lt_r.
  - unfold MinMaxScaler.transform1.
    rewrite !(Qplus_comm _ (MinMaxScaler.min_ sc)). apply Qplus_lt_r.
    now apply Qmult_lt_compat_r.
Qed.

Lemma scaler_directions_witness :
  exists sc,
    MinMaxScaler.fit [322; 315; 308; 301; 294; 287; 280; 276]%Q = Return sc
    /\ (MinMaxScaler.transform1 sc (MinMaxScaler.inverse1 sc (3 # 2))
        == 3 # 2)%Q.
Proof.
  eexists. split; [reflexivity|].
  exact (proj1 (@scaler_directions
                  [322; 315; 308; 301; 294; 287; 280; 276]%Q _
                  (3 # 2)%Q 2%Q eq_refl)).
Defined.

(** ** What the forecast and the section need *)

(** X6: the recursive forecast needs a full window.  With at least
    [look_back] scaled values it returns [horizon] values, the first one
    predicted from the last [look_back] values of the series; with fewer
    it raises [ValueError] at its first step, the context not having the
    shape the network takes. *)
Theorem future_predictions_needs_window (A : Type) (look_back : nat)
  (predict : list A -> A) (scaled_data : list A) (horizon : nat) :
  0 < look_back ->
  1 <= horizon ->
  (look_back <= length scaled_data ->
   exists outs,
     Forecast.future_predictions look_back predict scaled_data horizon
     = Return outs
     /\ length outs = horizon
     /\ nth_error outs 0
        = Some (predict (skipn (length scaled_data - look_back) scaled_data)))
  /\ (length scaled_data < look_back ->
      Forecast.future_predictions look_back predict scaled_data horizon
      = Raise ValueError).
Proof.
  intros Hpos Hk. split; intros Hlen.
  - unfold Forecast.future_predictions, Forecast.forecast.
    rewrite loop_runs by (try apply last_slice_length; lia).
    cbn [bind snd app]. eexists. split; [reflexivity|].
    split; [apply predictions_length|].
    rewrite predictions_nth by lia. cbn [Nat.iter].
    destruct look_back; [lia | reflexivity].
  - unfold Forecast.future_predictions, Forecast.forecast.
    destruct horizon as [|h]; [lia|].
    destruct look_back as [|w] eqn:Hw; [lia|].
    cbn [Forecast.loop Forecast.body Np.last_slice].
    replace (length scaled_data - S w) with 0 by lia. cbn [skipn].
    unfold Np.reshape_1_w_1.
    destruct (Nat.eqb_spec (length scaled_data) (S w)); [lia|reflexivity].
Qed.

Lemma future_predictions_needs_window_witness :
  (exists outs,
     Forecast.future_predictions 4 (fun c => list_sum c)
       [1; 2; 3; 4; 5; 6] 5 = Return outs
     /\ length outs = 5)
  /\ Forecast.future_predictions 4 (fun c => list_sum c) [1; 2; 3] 5
     = Raise ValueError.
Proof.
  destruct (@future_predictions_needs_window nat 4 (fun c => list_sum c)
              [1; 2; 3; 4; 5; 6] 5) as [Hok _]; [lia | lia |].
  destruct (@future_predictions_needs_window nat 4 (fun c => list_sum c)
              [1; 2; 3] 5) as [_ Hbad]; [lia | lia |].
  split.
  - destruct Hok as (outs & Hrun & Hlen & _); [cbn; lia|].
    exists outs. split; [exact Hrun | exact Hlen].
  - apply Hbad. cbn. lia.
Defined.

Lemma fit_transform_runs (x : Q) (rest : list Q) :
  exists sc,
    MinMaxScaler.fit_transform (x :: rest)
    = Return (sc, map (MinMaxScaler.transform1 sc) (x :: rest)).
Proof. eexists. reflexivity. Qed.

(** X7: the section needs two windows.  On a series with fewer than
    [look_back + 2] values it never returns, whatever the fitting of the
    network does: the scaler refuses an empty series, and with fewer than
    two windows the training part of the split is empty, so that the
    fitting fails or the inverse transform of the training predictions
    raises. *)
Theorem lstm_section_needs_two_windows
  (fit_model : list (list Q) -> list Q -> result (list Q -> Q))
  (df : list (Dates.date * Q)) (look_back horizon : nat) :
  length df < look_back + 2 ->
  Py.raises (Lstm.lstm_section fit_model df look_back horizon).
Proof.
  intros Hlen. unfold Lstm.lstm_section.
  destruct df as [|[d0 v0] df']; [exists ValueError; reflexivity|].
  cbn [map snd].
  destruct (fit_transform_runs v0 (map snd df')) as [sc Hft].
  rewrite Hft. cbn [bind].
  set (scaled := map (MinMaxScaler.transform1 sc) (v0 :: map snd df')).
  assert (Hsl : length scaled = length ((d0, v0) :: df'))
    by (unfold scaled; cbn; now rewrite !length_map).
  assert (Hw : exists X y,
             Windowing.make_windows look_back scaled = Return (X, y)
             /\ length X <= 1).
  { destruct (Nat.le_gt_cases (length scaled) look_back) as [Hle|Hgt].
    - exists [], []. split; [|cbn; lia].
      unfold Windowing.make_windows.
      now replace (length scaled - look_back) with 0 by lia.
    - destruct (@make_windows_lengths Q look_back scaled Hgt)
        as (X & y & Hrun & HX & _).
      exists X, y. split; [exact Hrun | lia]. }
  destruct Hw as (X & y & Hrun & HX). rewrite Hrun. cbn [bind].
  unfold Windowing.train_test_split.
  replace (Windowing.train_size (length X)) with 0
    by (destruct X as [|? [|? ?]]; cbn in *; try reflexivity; lia).
  cbn [firstn skipn].
  destruct (fit_model [] []) as [predict|e]; [|exists e; reflexivity].
  exists ValueError. reflexivity.
Qed.

Lemma lstm_section_needs_two_windows_witness :
  Py.raises
    (Lstm.lstm_section Lstm.fit_mean (firstn 5 Lstm.eight_years)
       Lstm.look_back Lstm.horizon).
Proof.
  apply lstm_section_needs_two_windows. cbn. lia.
Defined.

(** ** The dates of the plots *)

(** X8: the test predictions are plotted at the dates of their labels.
    [test_dates] has one date per test window, and the date at position
    [j] is the date of the row of the series whose scaled value is the
    label of test window [j]. *)
Theorem test_dates_aligned (df : list (Dates.date * Q)) (look_back : nat)
  (sc : MinMaxScaler.t) (scaled : list Q) (X : list (list Q)) (y : list Q) :
  MinMaxScaler.fit_transform (map snd df) = Return (sc, scaled) ->
  Windowing.make_windows look_back scaled = Return (X, y) ->
  let k := Windowing.train_size (length X) in
  let dates := Plots.test_dates (map fst df) k look_back
                 (length (skipn k X)) in
  length dates = length (skipn k y)
  /\ length dates = length (skipn k X)
  /\ forall j d v,
       nth_error df (k + look_back + j) = Some (d, v) ->
       nth_error dates j = Some d
       /\ nth_error (skipn k y) j = Some (MinMaxScaler.transform1 sc v).
Proof.
  intros Hft Hrun k dates.
  destruct (fit_transform_inv _ Hft) as (_ & _ & Hscaled).
  destruct (make_windows_inv _ _ Hrun) as (HX & Hy & Hnth).
  assert (Hsl : length scaled = length df)
    by (now rewrite Hscaled, !length_map).
  assert (HXl : length X = length df - look_back)
    by (now rewrite HX, length_map, length_seq, Hsl).
  assert (Hk : k <= length X).
  { unfold k, Windowing.train_size.
    apply Nat.Div0.div_le_upper_bound. lia. }
  assert (Hd : length dates = length X - k).
  { unfold dates, Plots.test_dates, Np.slice.
    rewrite length_firstn, !length_skipn, length_map. lia. }
  split; [rewrite Hd, length_skipn; lia|].
  split; [rewrite Hd, length_skipn; lia|].
  intros j d v Hrow.
  assert (Hj : k + look_back + j < length df)
    by (apply nth_error_Some; now rewrite Hrow).
  split.
  - unfold dates, Plots.test_dates, Np.slice.
    rewrite nth_error_firstn, length_skipn.
    destruct (Nat.ltb_spec j (k + look_back + (length X - k) - (k + look_back)));
      [|lia].
    now rewrite nth_error_skipn, nth_error_map, Hrow.
  - rewrite nth_error_skipn, Hnth by lia.
    rewrite Hscaled, nth_error_map, nth_error_map.
    replace (k + j + look_back) with (k + look_back + j) by lia.
    now rewrite Hrow.
Qed.

Lemma test_dates_aligned_witness :
  nth_error
    (Plots.test_dates (map fst Lstm.eight_years) 3 4 1) 0
  = Some (Lstm.first_of_january 2007).
Proof.
  edestruct test_dates_aligned
    with (df := Lstm.eight_years) (look_back := 4)
    as (_ & _ & Hrow); [reflexivity | reflexivity |].
  exact (proj1 (Hrow 0 (Lstm.first_of_january 2007) 276%Q eq_refl)).
Defined.

(** X9: the ARIMA plot and the LSTM plot use the same five dates.  The
    six year ends counted from the last observed date, without the first
    (line 135), are the five year ends counted from one year after it
    (line 216), whatever the last observed date. *)
Theorem arima_and_lstm_dates_agree (last_observed : Dates.date) :
  Plots.arima_future_dates last_observed
  = Dates.future_dates last_observed Lstm.horizon.
Proof.
  unfold Plots.arima_future_dates, Dates.future_dates, Dates.date_range,
    Lstm.horizon.
  cbn [seq map tl]. rewrite !rollforward_year.
  unfold Dates.add_years. cbn [Dates.year].
  repeat (f_equal; try lia).
Qed.

(** ** The sign of the test-set error *)

Section ErrorSignFacts.

Import Evaluate.
Open Scope Q_scope.

Lemma square_nonneg (a : Q) : 0 <= a ^ 2.
Proof.
  change (a ^ 2) with (a * a).
  destruct (Qlt_le_dec 0 a) as [Ha|Ha].
  - apply Qmult_le_0_compat; now apply Qlt_le_weak.
  - assert (Hn : 0 <= - a) by (apply (Qopp_le_compat a 0); exact Ha).
    setoid_replace (a * a) with (- a * - a) by ring.
    now apply Qmult_le_0_compat.
Qed.

Lemma normalized_errors_nonneg (preds labels : list Q) :
  0 <= np_sum (normalized_squared_errors preds labels).
Proof.
  revert labels. induction preds as [|p ps IH]; intros [|l ls];
    cbn [normalized_squared_errors np_sum fold_right]; try apply Qle_refl.
  fold (np_sum (normalized_squared_errors ps ls)).
  rewrite <- (Qplus_0_l 0).
  apply Qplus_le_compat; [apply square_nonneg | apply IH].
Qed.

Lemma square_zero (a : Q) : a ^ 2 == 0 -> a == 0.
Proof.
  intros H. change (a ^ 2) with (a * a) in H.
  now destruct (Qmult_integral _ _ H).
Qed.

Lemma sum_zero_parts (a b : Q) :
  0 <= a -> 0 <= b -> a + b == 0 -> a == 0 /\ b == 0.
Proof.
  intros Ha Hb Hab. split; apply Qle_antisym; try assumption.
  - rewrite <- Hab. rewrite <- (Qplus_0_r a) at 1.
    apply Qplus_le_compat; [apply Qle_refl | exact Hb].
  - rewrite <- Hab. rewrite <- (Qplus_0_l b) at 1.
    apply Qplus_le_compat; [exact Ha | apply Qle_refl].
Qed.

Lemma normalized_errors_zero (preds labels : list Q) :
  length preds = length labels ->
  (np_sum (normalized_squared_errors preds labels) == 0
   <-> Forall2 Qeq preds labels).
Proof.
  revert labels. induction preds as [|p ps IH]; intros [|l ls] Hlen;
    try discriminate Hlen.
  - cbn. split; [constructor | reflexivity].
  - injection Hlen as Hlen.
    cbn [normalized_squared_errors np_sum fold_right].
    fold (np_sum (normalized_squared_errors ps ls)). split.
    + intros H.
      destruct (sum_zero_parts (square_nonneg (p - l))
                  (normalized_errors_nonneg ps ls) H) as [Hd Hs].
      constructor; [|now apply IH].
      apply square_zero in Hd.
      rewrite <- (Qplus_0_l l), <- Hd. ring.
    + intros H. inversion H as [|? ? ? ? Hpl Hrest]; subst.
      apply (IH ls Hlen) in Hrest. rewrite Hrest, Hpl. ring.
Qed.

End ErrorSignFacts.

(** X10: the test-set error is never negative, and it is zero exactly
    when every test prediction equals its label. *)
Theorem test_loss_sign (series : list Q) (sc : MinMaxScaler.t)
  (predict : list Q -> Q) (X_test : list (list Q)) (y_test : list Q) :
  MinMaxScaler.fit series = Return sc ->
  X_test <> [] ->
  length X_test = length y_test ->
  exists m,
    Evaluate.test_loss sc predict X_test y_test = Return (Some m)
    /\ (0 <= m)%Q
    /\ ((m == 0)%Q <-> Forall2 Qeq (map predict X_test) y_test).
Proof.
  intros Hfit Hne Hlen.
  pose proof (fit_scale_pos _ Hfit) as Hpos.
  assert (Hs : ~ (MinMaxScaler.scale_ sc == 0)%Q).
  { intros H0. rewrite H0 in Hpos. revert Hpos. apply Qlt_irrefl. }
  assert (Hn : (0 < inject_Z (Z.of_nat (length X_test)))%Q).
  { destruct X_test; [contradiction|]. unfold Qlt. cbn. lia. }
  assert (Hc : (0 < (/ MinMaxScaler.scale_ sc) ^ 2)%Q).
  { change ((/ MinMaxScaler.scale_ sc) ^ 2)%Q
      with (/ MinMaxScaler.scale_ sc * / MinMaxScaler.scale_ sc)%Q.
    apply Qmult_lt_0_compat; now apply Qinv_lt_0_compat. }
  set (S := Evaluate.np_sum
              (Evaluate.normalized_squared_errors (map predict X_test) y_test)).
  assert (HS : (0 <= S)%Q) by apply normalized_errors_nonneg.
  eexists. split; [apply test_loss_runs; assumption|].
  rewrite (@squared_errors_scaled sc Hs). fold S.
  rewrite <- (normalized_errors_zero (map predict X_test) y_test)
    by (now rewrite length_map).
  fold S. set (c := ((/ MinMaxScaler.scale_ sc) ^ 2)%Q) in *.
  clearbody c S.
  split.
  - apply Qle_shift_div_l; [exact Hn|]. rewrite Qmult_0_l.
    apply Qmult_le_0_compat; [now apply Qlt_le_weak | exact HS].
  - split.
    + intros Hm.
      assert (Hprod : (c * S == 0)%Q).
      { assert (Hnz : ~ (inject_Z (Z.of_nat (length X_test)) == 0)%Q).
        { intros H0. rewrite H0 in Hn. revert Hn. apply Qlt_irrefl. }
        setoid_replace (c * S)%Q
          with (c * S / inject_Z (Z.of_nat (length X_test))
                * inject_Z (Z.of_nat (length X_test)))%Q
          by (field; exact Hnz).
        rewrite Hm. ring. }
      destruct (Qmult_integral _ _ Hprod) as [H0|H0]; [|exact H0].
      rewrite H0 in Hc. exfalso. revert Hc. apply Qlt_irrefl.
    + intros H0. rewrite H0. field. intros Hz. rewrite Hz in Hn.
      revert Hn. apply Qlt_irrefl.
Qed.

Lemma test_loss_sign_witness :
  exists sc m,
    MinMaxScaler.fit [200; 210]%Q = Return sc
    /\ Evaluate.test_loss sc (fun _ => 1 # 2)%Q [[0; 1]%Q] [1]%Q
       = Return (Some m)
    /\ (0 <= m)%Q.
Proof.
  eexists.
  pose proof (@test_loss_sign [200; 210]%Q _
                (fun _ => 1 # 2)%Q [[0; 1]%Q] [1]%Q eq_refl) as H.
  destruct H as (m & Hrun & Hpos & _); [discriminate | reflexivity |].
  exists m. split; [reflexivity|]. split; [exact Hrun | exact Hpos].
Defined.

(** * Further properties of the data updater *)

(** ** Merging a batch without a new period *)

Section PeriodFacts.

Import DataUpdater.

Lemma row_of_some (d : Dates.date) (df : list row) (r : row) :
  row_of d df = Some r -> In r df /\ ds r = d.
Proof.
  unfold row_of. intros H. apply find_some in H. destruct H as [Hin Heq].
  apply date_eqb_eq in Heq. now split.
Qed.

Lemma row_of_not_none (d : Dates.date) (df : list row) :
  row_of d df <> None -> In d (map ds df).
Proof.
  destruct (row_of d df) as [r|] eqn:Hr; [|congruence]. intros _.
  apply row_of_some in Hr. destruct Hr as [Hin <-]. now apply in_map.
Qed.

Lemma ltb_asym (a b : Dates.date) :
  Dates.ltb a b = true -> Dates.ltb b a = true -> False.
Proof. rewrite !ltb_lex. lia. Qed.

(** Dates in strictly ascending order are determined by which dates
    they are. *)
Lemma strictly_sorted_dates_ext (l1 l2 : list Dates.date) :
  StronglySorted (fun a b => Dates.ltb a b = true) l1 ->
  StronglySorted (fun a b => Dates.ltb a b = true) l2 ->
  (forall d, In d l1 <-> In d l2) ->
  l1 = l2.
Proof.
  intros Hs1. revert l2.
  induction Hs1 as [|h1 t1 Ht1 IH Hall1]; intros l2 Hs2 Hsame.
  - destruct l2 as [|h2 t2]; [reflexivity|].
    exfalso. apply (proj2 (Hsame h2)). now left.
  - destruct Hs2 as [|h2 t2 Ht2 Hall2].
    { exfalso. apply (proj1 (Hsame h1)). now left. }
    rewrite Forall_forall in Hall1, Hall2.
    assert (Hh : h1 = h2).
    { destruct (proj1 (Hsame h1) (or_introl eq_refl)) as [Heq|Hin1];
        [now symmetry|].
      destruct (proj2 (Hsame h2) (or_introl eq_refl)) as [Heq|Hin2];
        [exact Heq|].
      exfalso. apply (ltb_asym h1 h2); [now apply Hall1 | now apply Hall2]. }
    subst h2. f_equal. apply IH; [exact Ht2|].
    intros d. split; intros Hd.
    + destruct (proj1 (Hsame d) (or_intror Hd)) as [<-|Hin]; [|exact Hin].
      specialize (Hall1 _ Hd). rewrite ltb_irrefl in Hall1. discriminate.
    + destruct (proj2 (Hsame d) (or_intror Hd)) as [<-|Hin]; [|exact Hin].
      specialize (Hall2 _ Hd). rewrite ltb_irrefl in Hall2. discriminate.
Qed.

Lemma strictly_ascending_dates (df : list row) :
  strictly_ascending df ->
  StronglySorted (fun a b => Dates.ltb a b = true) (map ds df).
Proof.
  unfold strictly_ascending.
  induction 1 as [|h t Ht IH Hall]; cbn [map]; constructor; [exact IH|].
  apply Forall_forall. intros d Hd. apply in_map_iff in Hd.
  destruct Hd as (r & <- & Hr). rewrite Forall_forall in Hall. now apply Hall.
Qed.

(** The rows kept of a sorted frame. *)
Lemma merged_rows (all sorted : list row) :
  sorted_frame all sorted ->
  strictly_ascending (drop_duplicates sorted)
  /\ (forall r, In r (drop_duplicates sorted) -> In r all)
  /\ (forall r, In r all ->
        exists r', In r' (drop_duplicates sorted) /\ ds r' = ds r).
Proof.
  intros [Hperm Hasc]. split; [now apply drop_duplicates_from_strict|].
  split.
  - intros r Hr. apply drop_duplicates_from_in in Hr.
    now apply (Permutation_in _ Hperm).
  - intros r Hr. apply drop_duplicates_from_covers; [|tauto].
    now apply (Permutation_in _ (Permutation_sym Hperm)).
Qed.

(** A batch whose periods are all in the frame adds no period. *)
Lemma merged_periods (current new sorted : list row) :
  sorted_frame (current ++ new) sorted ->
  strictly_ascending current ->
  (forall r, In r new -> row_of (ds r) current <> None) ->
  map ds (drop_duplicates sorted) = map ds current.
Proof.
  intros Hsorted Hasc Hold.
  destruct (merged_rows Hsorted) as (Hstrict & Hfrom & Hcovers).
  apply strictly_sorted_dates_ext; try now apply strictly_ascending_dates.
  intros d. split; intros Hd; apply in_map_iff in Hd;
    destruct Hd as (r & <- & Hr).
  - apply Hfrom in Hr. apply in_app_or in Hr. destruct Hr as [Hr|Hr].
    + now apply in_map.
    + apply row_of_not_none. now apply Hold.
  - destruct (Hcovers r) as (r' & Hr' & Heq); [apply in_or_app; now left|].
    rewrite <- Heq. now apply in_map.
Qed.

End PeriodFacts.

(** X11: a batch without a new period adds no period.  When the stored
    data are in strictly ascending order of period and every fetched
    record has a period already stored, the frame returned and written
    has a [source] column, the stored periods, in the stored order, and
    as many rows; each of its rows is the stored row or a fetched row of
    its period. *)
Theorem integrate_new_data_nothing_new
  (sort_values : list DataUpdater.row -> list DataUpdater.row)
  (current_df : DataUpdater.frame)
  (new_data : list DataUpdater.data_point)
  (new_df : list DataUpdater.row) :
  DataUpdater.new_df new_data = Some new_df ->
  DataUpdater.sorted_frame (DataUpdater.rows current_df ++ new_df)
    (sort_values (DataUpdater.rows current_df ++ new_df)) ->
  DataUpdater.strictly_ascending (DataUpdater.rows current_df) ->
  (forall r, In r new_df ->
             DataUpdater.row_of (DataUpdater.ds r)
               (DataUpdater.rows current_df) <> None) ->
  exists updated_df,
    DataUpdater.integrate_new_data sort_values (Some current_df) new_data
    = (Some updated_df, Some updated_df)
    /\ DataUpdater.has_source updated_df = true
    /\ map DataUpdater.ds (DataUpdater.rows updated_df)
       = map DataUpdater.ds (DataUpdater.rows current_df)
    /\ length (DataUpdater.rows updated_df)
       = length (DataUpdater.rows current_df)
    /\ forall r, In r (DataUpdater.rows updated_df) ->
                 In r (DataUpdater.rows current_df) \/ In r new_df.
Proof.
  intros Hnew Hsorted Hasc Hold.
  eexists. split.
  { unfold DataUpdater.integrate_new_data. rewrite Hnew. reflexivity. }
  cbn [DataUpdater.rows DataUpdater.has_source]. split; [reflexivity|].
  pose proof (@merged_periods _ _ _ Hsorted Hasc Hold) as Hds.
  split; [exact Hds|]. split.
  - now rewrite <- (length_map DataUpdater.ds), Hds, length_map.
  - intros r Hr. apply in_app_or.
    now apply (proj1 (proj2 (@merged_rows _ _ Hsorted))).
Qed.

Lemma integrate_new_data_nothing_new_witness :
  exists updated_df,
    DataUpdater.integrate_new_data DataUpdater.sort_values_quicksort
      (Some {| DataUpdater.has_source := false;
               DataUpdater.rows := DataUpdater.stored_2022_2023 |})
      (firstn 1 DataUpdater.get_new_who_data)
    = (Some updated_df, Some updated_df)
    /\ map DataUpdater.ds (DataUpdater.rows updated_df)
       = map DataUpdater.ds DataUpdater.stored_2022_2023.
Proof.
  edestruct integrate_new_data_nothing_new
    with (sort_values := DataUpdater.sort_values_quicksort)
         (current_df := {| DataUpdater.has_source := false;
                           DataUpdater.rows := DataUpdater.stored_2022_2023 |})
         (new_data := firstn 1 DataUpdater.get_new_who_data)
    as (out & Hrun & _ & Hds & _).
  - reflexivity.
  - split; [apply Permutation_refl|]. repeat constructor.
  - repeat constructor.
  - intros r [<-|[]]. vm_compute. discriminate.
  - exists out. split; [exact Hrun | exact Hds].
Defined.

(** X12: merging the same batch a second time adds and removes no
    period.  Run again on the file it has just written, with the same
    batch, [integrate_new_data] returns a frame with the periods of the
    first, in the same order, and a [source] column as the first. *)
Theorem integrate_new_data_idempotent
  (sort_values : list DataUpdater.row -> list DataUpdater.row)
  (current_df first : DataUpdater.frame)
  (new_data : list DataUpdater.data_point)
  (new_df : list DataUpdater.row) :
  DataUpdater.new_df new_data = Some new_df ->
  DataUpdater.sorted_frame (DataUpdater.rows current_df ++ new_df)
    (sort_values (DataUpdater.rows current_df ++ new_df)) ->
  DataUpdater.integrate_new_data sort_values (Some current_df) new_data
  = (Some first, Some first) ->
  DataUpdater.sorted_frame (DataUpdater.rows first ++ new_df)
    (sort_values (DataUpdater.rows first ++ new_df)) ->
  exists second,
    DataUpdater.integrate_new_data sort_values
      (fst (DataUpdater.integrate_new_data sort_values (Some current_df)
              new_data))
      new_data
    = (Some second, Some second)
    /\ map DataUpdater.ds (DataUpdater.rows second)
       = map DataUpdater.ds (DataUpdater.rows first)
    /\ DataUpdater.has_source second = DataUpdater.has_source first.
Proof.
  intros Hnew Hsorted1 Hfirst Hsorted2. rewrite Hfirst. cbn [fst].
  unfold DataUpdater.integrate_new_data in Hfirst. rewrite Hnew in Hfirst.
  injection Hfirst as Hfirst. subst first. cbn [DataUpdater.rows] in *.
  eexists. split.
  { unfold DataUpdater.integrate_new_data. rewrite Hnew. reflexivity. }
  cbn [DataUpdater.rows DataUpdater.has_source]. split; [|reflexivity].
  destruct (@merged_rows _ _ Hsorted1) as (Hstrict & _ & Hcovers).
  apply (@merged_periods _ _ _ Hsorted2 Hstrict).
  intros r Hr Hnone.
  destruct (Hcovers r) as (r' & Hr' & Heq); [apply in_or_app; now right|].
  pose proof (find_none _ _ Hnone r' Hr') as Hf. cbn in Hf.
  rewrite Heq, date_eqb_refl in Hf. discriminate.
Qed.

Lemma integrate_new_data_idempotent_witness :
  exists first second,
    DataUpdater.integrate_new_data DataUpdater.sort_values_quicksort
      (Some {| DataUpdater.has_source := false;
               DataUpdater.rows := DataUpdater.stored_2022_2023 |})
      DataUpdater.get_new_who_data
    = (Some first, Some first)
    /\ DataUpdater.integrate_new_data DataUpdater.sort_values_quicksort
         (Some first) DataUpdater.get_new_who_data
       = (Some second, Some second)
    /\ map DataUpdater.ds (DataUpdater.rows second)
       = map DataUpdater.ds (DataUpdater.rows first).
Proof.
  eexists.
  edestruct integrate_new_data_idempotent
    with (sort_values := DataUpdater.sort_values_quicksort)
         (current_df := {| DataUpdater.has_source := false;
                           DataUpdater.rows := DataUpdater.stored_2022_2023 |})
         (new_data := DataUpdater.get_new_who_data)
    as (second & Hrun & Hds & _).
  - reflexivity.
  - split; [apply Permutation_refl|]. repeat constructor.
  - reflexivity.
  - split; [|repeat constructor].
    vm_compute. apply perm_skip, perm_skip, perm_swap.
  - exists second. split; [reflexivity|]. split; [exact Hrun | exact Hds].
Defined.

(** ** Validation after a merge *)

Section ValidationFacts.

Import DataUpdater Validation.

Lemma duplicated_from_nodup (seen : list Dates.date) (df : list row) :
  NoDup (map ds df) ->
  (forall r, In r df -> ~ In (ds r) seen) ->
  any (duplicated_from seen df) = false.
Proof.
  unfold any. revert seen.
  induction df as [|h t IH]; intros seen Hnd Hseen; [reflexivity|].
  cbn [map] in Hnd. inversion Hnd as [|? ? Hh Ht]; subst.
  cbn [duplicated_from].
  assert (Hs : existsb (date_eqb (ds h)) seen = false).
  { apply seen_false. apply Hseen. now left. }
  rewrite Hs. cbn [existsb orb]. apply IH; [exact Ht|].
  intros r Hr [Heq|Hin].
  - apply Hh. rewrite Heq. now apply in_map.
  - apply (Hseen r); [now right | exact Hin].
Qed.

Open Scope Z_scope.

Lemma leap_step (y : Z) :
  y / 4 - (y - 1) / 4 - (y / 100 - (y - 1) / 100)
  + (y / 400 - (y - 1) / 400)
  = if Dates.is_leap y then 1 else 0.
Proof.
  unfold Dates.is_leap.
  destruct (Z.eqb_spec (y mod 4) 0) as [H4|H4];
    destruct (Z.eqb_spec (y mod 100) 0) as [H100|H100];
    destruct (Z.eqb_spec (y mod 400) 0) as [H400|H400];
    cbn [andb orb negb];
    Z.div_mod_to_equations; lia.
Qed.

Lemma first_of_january_ordinal (y : Z) :
  to_ordinal (Lstm.first_of_january y) = days_before_year y + 1.
Proof. unfold to_ordinal. cbn. lia. Qed.

Lemma year_length (y : Z) :
  to_ordinal (Lstm.first_of_january (y + 1))
  - to_ordinal (Lstm.first_of_january y)
  = 365 + if Dates.is_leap y then 1 else 0.
Proof.
  rewrite !first_of_january_ordinal. unfold days_before_year.
  cbv zeta. replace (y + 1 - 1) with y by lia.
  pose proof (leap_step y) as H. lia.
Qed.

Lemma years_from_succ (first : Z) (n : nat) :
  years_from first (S n) = first :: years_from (first + 1) n.
Proof.
  unfold years_from. cbn [seq map]. f_equal; [lia|].
  rewrite <- seq_shift, map_map. apply map_ext. intros i. lia.
Qed.

Lemma gaps_of_years (y : Z) (n : nat) :
  map (fun x => match x with
                | Some days => negb (days =? 365)
                | None => false
                end)
      (diff_from (Lstm.first_of_january y)
         (map Lstm.first_of_january (years_from (y + 1) n)))
  = map Dates.is_leap (years_from y n).
Proof.
  revert y. induction n as [|n IH]; intros y; [reflexivity|].
  rewrite !years_from_succ. cbn [map diff_from].
  rewrite year_length, IH. f_equal.
  destruct (Dates.is_leap y); [|now rewrite Z.add_0_r].
  reflexivity.
Qed.

End ValidationFacts.

(** X13: the duplicate check never fires on a merged frame.  Whatever
    kind of sort [sort_values] runs, when [integrate_new_data] returns a
    frame, [validate_updated_data] finds no duplicate period in it. *)
Theorem validate_after_integrate
  (sort_values : list DataUpdater.row -> list DataUpdater.row)
  (data_file written : option DataUpdater.frame)
  (new_data : list DataUpdater.data_point)
  (updated_df : DataUpdater.frame) :
  (forall current_df new_df,
     data_file = Some current_df ->
     DataUpdater.new_df new_data = Some new_df ->
     DataUpdater.ascending
       (sort_values (DataUpdater.rows current_df ++ new_df))) ->
  DataUpdater.integrate_new_data sort_values data_file new_data
  = (written, Some updated_df) ->
  Validation.duplicate_warning
    (Validation.validate_updated_data (DataUpdater.rows updated_df))
  = false.
Proof.
  intros Hasc Hrun. unfold DataUpdater.integrate_new_data in Hrun.
  destruct data_file as [current_df|]; [|discriminate Hrun].
  destruct (DataUpdater.new_df new_data) as [new_df|] eqn:Hnew;
    [|discriminate Hrun].
  injection Hrun as _ <-.
  cbn [Validation.validate_updated_data Validation.duplicate_warning
         DataUpdater.rows].
  apply duplicated_from_nodup; [|intros r _ []].
  apply strictly_ascending_nodup, drop_duplicates_from_strict.
  now apply Hasc.
Qed.

Lemma validate_after_integrate_witness :
  Validation.duplicate_warning
    (Validation.validate_updated_data
       (DataUpdater.drop_duplicates
          (DataUpdater.sort_values_quicksort
             (DataUpdater.stored_2022_2023
              ++ [ {| DataUpdater.ds :=
                        {| Dates.year := 2023; Dates.month := 1;
                           Dates.day := 1 |};
                      DataUpdater.y := 215%Q;
                      DataUpdater.source :=
                        Some "WHO Global TB Report 2024"%string |};
                   {| DataUpdater.ds :=
                        {| Dates.year := 2024; Dates.month := 1;
                           Dates.day := 1 |};
                      DataUpdater.y := 210%Q;
                      DataUpdater.source :=
                        Some "WHO Preliminary Estimates"%string |} ]))))
  = false.
Proof.
  eapply validate_after_integrate
    with (sort_values := DataUpdater.sort_values_quicksort)
         (data_file := Some {| DataUpdater.has_source := false;
                               DataUpdater.rows :=
                                 DataUpdater.stored_2022_2023 |})
         (new_data := DataUpdater.get_new_who_data)
         (updated_df :=
            {| DataUpdater.has_source := true;
               DataUpdater.rows :=
                 DataUpdater.drop_duplicates
                   (DataUpdater.sort_values_quicksort
                      (DataUpdater.stored_2022_2023
                       ++ [ {| DataUpdater.ds :=
                                 {| Dates.year := 2023; Dates.month := 1;
                                    Dates.day := 1 |};
                               DataUpdater.y := 215%Q;
                               DataUpdater.source :=
                                 Some "WHO Global TB Report 2024"%string |};
                            {| DataUpdater.ds :=
                                 {| Dates.year := 2024; Dates.month := 1;
                                    Dates.day := 1 |};
                               DataUpdater.y := 210%Q;
                               DataUpdater.source :=
                                 Some "WHO Preliminary Estimates"%string |} ]))
            |}).
  - intros current_df new_df Hc Hn. injection Hc as <-. injection Hn as <-.
    repeat constructor.
  - reflexivity.
Defined.

(** X14: the gap check counts 365 days to a year.  On rows dated the
    first of January of consecutive years, without a gap, it warns
    exactly when one of the years but the last is a leap year. *)
Theorem gap_check_flags_leap_years (updated_df : list DataUpdater.row)
  (first : Z) (n : nat) :
  map DataUpdater.ds updated_df
  = map Lstm.first_of_january (Validation.years_from first (S n)) ->
  Validation.gap_warning (Validation.validate_updated_data updated_df)
  = existsb Dates.is_leap (Validation.years_from first n).
Proof.
  intros Hds. cbn [Validation.validate_updated_data Validation.gap_warning].
  rewrite Hds, years_from_succ. unfold Validation.gaps, Validation.any.
  cbn [map Validation.date_diffs existsb orb].
  rewrite gaps_of_years.
  induction (Validation.years_from first n) as [|y ys IH]; [reflexivity|].
  cbn [map existsb]. now rewrite IH.
Qed.

Lemma gap_check_flags_leap_years_witness :
  Validation.gap_warning
    (Validation.validate_updated_data
       [DataUpdater.stored_row 2023 215%Q; DataUpdater.stored_row 2024 210%Q;
        DataUpdater.stored_row 2025 205%Q])
  = true.
Proof.
  exact (@gap_check_flags_leap_years
           [DataUpdater.stored_row 2023 215%Q;
            DataUpdater.stored_row 2024 210%Q;
            DataUpdater.stored_row 2025 205%Q] 2023%Z 2 eq_refl).
Defined.

(** ** The update cycle *)

Section CycleFacts.

Import Cycle.

Variable column_max : list value -> option value.
Variable integrate : files -> files * option frame.
Variable after_update : files -> frame -> files * bool.

(** [Series.max] gives an entry of the column or [nan]. *)
Hypothesis column_max_entry :
  forall column m, column_max column = Some m ->
                   In m column \/ m = Float None.

Lemma getitem_in (df : frame) (name : String.string) (column : list value) :
  getitem df name = Some column -> exists n, In (n, column) df.
Proof.
  induction df as [|[n c] rest IH]; cbn; [discriminate|].
  destruct (String.eqb n name).
  - intros H. injection H as <-. exists n. now left.
  - intros H. destruct (IH H) as [n' Hn']. exists n'. now right.
Qed.

Lemma has_new_who_data_false (fs : files) :
  (forall df, data_file fs = Csv df -> read_by_read_csv df) ->
  has_new_who_data column_max fs = false.
Proof.
  intros Hcsv. unfold has_new_who_data.
  destruct (data_file fs) as [| |df] eqn:Hf; cbn [read_csv]; try reflexivity.
  destruct (getitem df "ds") as [column|] eqn:Hcol; [|reflexivity].
  destruct (column_max column) as [m|] eqn:Hm; [|reflexivity].
  destruct (getitem_in _ _ Hcol) as [n Hn].
  destruct (column_max_entry Hm) as [Hin| ->]; [|reflexivity].
  pose proof (Hcsv df eq_refl n column m Hn Hin) as Hts.
  destruct m; try reflexivity. discriminate Hts.
Qed.

End CycleFacts.

(** X15: the update cycle finds nothing to update.  On a data file read
    by [read_csv], whose columns hold no timestamp, [has_new_who_data]
    returns [False]: the year of the latest stored date is asked of a
    value that has none, and the exception is caught.  So
    [fetch_who_tb_data] returns [None] without calling
    [integrate_new_data], and [run_automatic_update] leaves the data
    file as it is and returns [True], unless the file is there and
    cannot be read, when the backup fails and it returns [False]. *)
Theorem run_automatic_update_updates_nothing
  (column_max : list Cycle.value -> option Cycle.value)
  (integrate : Cycle.files -> Cycle.files * option Cycle.frame)
  (after_update : Cycle.files -> Cycle.frame -> Cycle.files * bool)
  (now : String.string) (fs : Cycle.files) :
  (forall column m, column_max column = Some m ->
                    In m column \/ m = Cycle.Float None) ->
  (forall df, Cycle.data_file fs = Cycle.Csv df -> Cycle.read_by_read_csv df) ->
  Cycle.has_new_who_data column_max fs = false
  /\ Cycle.fetch_who_tb_data column_max integrate fs = (fs, None)
  /\ Cycle.data_file
       (fst (Cycle.run_automatic_update column_max integrate after_update
               now fs))
     = Cycle.data_file fs
  /\ snd (Cycle.run_automatic_update column_max integrate after_update
            now fs)
     = match Cycle.data_file fs with
       | Cycle.Unreadable => false
       | _ => true
       end.
Proof.
  intros Hmax Hcsv.
  pose proof (@has_new_who_data_false column_max Hmax fs Hcsv) as Hnew.
  split; [exact Hnew|].
  split; [unfold Cycle.fetch_who_tb_data; now rewrite Hnew|].
  unfold Cycle.run_automatic_update, Cycle.backup_existing_data,
    Cycle.fetch_who_tb_data.
  destruct (Cycle.data_file fs) as [| |df] eqn:Hf.
  - rewrite Hnew. cbn. now rewrite Hf.
  - cbn. now rewrite Hf.
  - rewrite (@has_new_who_data_false column_max Hmax); [cbn; now split|].
    cbn [Cycle.data_file]. intros df' Heq. apply Hcsv. congruence.
Qed.

Lemma last_entry_or_nan (column : list Cycle.value) (m : Cycle.value) :
  match column with
  | [] => Some (Cycle.Float None)
  | v :: rest => Some (fold_left (fun _ w => w) rest v)
  end = Some m ->
  In m column \/ m = Cycle.Float None.
Proof.
  destruct column as [|v rest]; intros H; injection H as <-; [now right|].
  left. revert v. induction rest as [|w rest IH]; intros v; [now left|].
  right. exact (IH w).
Qed.

Lemma run_automatic_update_updates_nothing_witness :
  Cycle.run_automatic_update
    (fun column => match column with
                   | [] => Some (Cycle.Float None)
                   | v :: rest => Some (fold_left (fun _ w => w) rest v)
                   end)
    (fun fs => (fs, None)) (fun fs _ => (fs, true)) "20240101_000000"
    {| Cycle.data_file :=
         Cycle.Csv [("ds"%string,
                     [Cycle.Str "2022-01-01"; Cycle.Str "2023-01-01"]);
                    ("y"%string, [Cycle.Int 220; Cycle.Int 215])];
       Cycle.backups := [] |}
  = ({| Cycle.data_file :=
          Cycle.Csv [("ds"%string,
                      [Cycle.Str "2022-01-01"; Cycle.Str "2023-01-01"]);
                     ("y"%string, [Cycle.Int 220; Cycle.Int 215])];
        Cycle.backups :=
          [("20240101_000000"%string,
            [("ds"%string,
              [Cycle.Str "2022-01-01"; Cycle.Str "2023-01-01"]);
             ("y"%string, [Cycle.Int 220; Cycle.Int 215])])] |},
     true).
Proof.
  edestruct run_automatic_update_updates_nothing
    with (column_max := fun column : list Cycle.value =>
                          match column with
                          | [] => Some (Cycle.Float None)
                          | v :: rest => Some (fold_left (fun _ w => w) rest v)
                          end)
         (integrate := fun fs : Cycle.files => (fs, @None Cycle.frame))
         (after_update := fun (fs : Cycle.files) (_ : Cycle.frame) =>
                            (fs, true))
         (now := "20240101_000000"%string)
         (fs := {| Cycle.data_file :=
                     Cycle.Csv
                       [("ds"%string,
                         [Cycle.Str "2022-01-01"; Cycle.Str "2023-01-01"]);
                        ("y"%string, [Cycle.Int 220; Cycle.Int 215])];
                   Cycle.backups := [] |})
    as (_ & _ & _ & Hret).
  - exact last_entry_or_nan.
  - intros df Hdf. injection Hdf as <-. intros name column v Hin Hv.
    destruct Hin as [Hin|[Hin|[]]]; injection Hin as <- <-;
      destruct Hv as [<-|[<-|[]]]; reflexivity.
  - reflexivity.
Defined.

(** X16: the range check warns exactly when some stored value is
    negative or above 1000. *)
Theorem range_check_iff (updated_df : list DataUpdater.row) :
  Validation.range_warning (Validation.validate_updated_data updated_df)
  = true
  <-> exists r, In r updated_df
                /\ (DataUpdater.y r < 0 \/ 1000 < DataUpdater.y r)%Q.
Proof.
  cbn [Validation.validate_updated_data Validation.range_warning].
  unfold Validation.unusual_values.
  destruct updated_df as [|r0 rest]; cbn [map].
  { split; [discriminate | intros (r & [] & _)]. }
  set (ys := map DataUpdater.y rest). set (v0 := DataUpdater.y r0).
  destruct (fold_min_spec ys v0) as [Hmin_in Hmin_le].
  destruct (fold_max_spec ys v0) as [Hmax_in Hmax_le].
  rewrite Forall_forall in Hmin_le, Hmax_le.
  assert (Hrows : forall v, In v (v0 :: ys) ->
                    exists r, In r (r0 :: rest) /\ DataUpdater.y r = v).
  { intros v Hv. change (v0 :: ys) with (map DataUpdater.y (r0 :: rest)) in Hv.
    apply in_map_iff in Hv. destruct Hv as (r & Hy & Hr). now exists r. }
  rewrite orb_true_iff, !negb_true_iff, <- !not_true_iff_false, !Qle_bool_iff.
  split.
  - intros [Hlow|Hhigh].
    + destruct (Hrows _ Hmin_in) as (r & Hr & Hy). exists r.
      split; [exact Hr|]. left. rewrite Hy. now apply Qnot_le_lt.
    + destruct (Hrows _ Hmax_in) as (r & Hr & Hy). exists r.
      split; [exact Hr|]. right. rewrite Hy. now apply Qnot_le_lt.
  - intros (r & Hr & [Hlow|Hhigh]).
    + left. intros H0. apply (Qlt_not_le _ _ Hlow).
      eapply Qle_trans; [exact H0|]. apply Hmin_le.
      change (v0 :: ys) with (map DataUpdater.y (r0 :: rest)).
      now apply in_map.
    + right. intros H0. apply (Qlt_not_le _ _ Hhigh).
      eapply Qle_trans; [|exact H0]. apply Hmax_le.
      change (v0 :: ys) with (map DataUpdater.y (r0 :: rest)).
      now apply in_map.
Qed.

(** X17: the dates of the forecast are year ends.  Date [j] of the
    forecast is the 31st of December of the year [j + 1] years after the
    year of the latest observed date, whatever the month and the day of
    that date; no observed date is in a later year than the latest. *)
Theorem future_dates_are_year_ends (ds : list Dates.date)
  (last_observed : Dates.date) (periods j : nat) :
  Dates.column_max ds = Return last_observed ->
  j < periods ->
  nth_error (Dates.future_dates last_observed periods) j
  = Some {| Dates.year := Dates.year last_observed + 1 + Z.of_nat j;
            Dates.month := 12; Dates.day := 31 |}
  /\ In last_observed ds
  /\ Forall (fun d => (Dates.year d <= Dates.year last_observed)%Z) ds.
Proof.
  intros Hmax Hj. split; [now apply future_dates_nth|].
  destruct ds as [|d0 rest]; [discriminate Hmax|].
  cbn [Dates.column_max] in Hmax. injection Hmax as <-.
  split; [apply fold_max_in | apply fold_max_years].
Qed.

Lemma future_dates_are_year_ends_witness :
  nth_error
    (Dates.future_dates (Lstm.first_of_january 2007) Lstm.horizon) 4
  = Some {| Dates.year := 2012; Dates.month := 12; Dates.day := 31 |}.
Proof.
  exact (proj1 (@future_dates_are_year_ends (map fst Lstm.eight_years)
                  (Lstm.first_of_january 2007) Lstm.horizon 4
                  eq_refl (le_n 5))).
Defined.
